(** * OrderChad: order lifecycle and inventory consistency

    A shallow embedding of the API route handlers of the order-management
    application (Next.js route handlers over a Prisma/PostgreSQL store):

    - [src/app/api/orders/route.ts]           ([POST_orders], checkout)
    - [src/app/api/orders/[id]/route.ts]      ([PATCH_order], status change)
    - [src/app/api/reviews/route.ts]          ([POST_reviews])
    - [src/app/api/cart/items/[id]/route.ts]  ([PATCH_cartItem], [DELETE_cartItem])
    - [src/app/api/products/[id]/route.ts]    ([PUT_product])

    and, in the second part, the reading handlers of the same files
    ([GET_orders], [GET_order], [GET_reviews], [GET_product]), the product
    deletion ([DELETE_product]), the middleware ([middleware]) and the
    sign-in callbacks ([authorize], [jwt], [session_callback], [signIn]).

    The database is a record of tables; a table is the list of its rows in
    storage order.  A handler is a function from the request and the store
    to a response and the new store.  An exception thrown inside a handler
    is caught by its [try]/[catch] and becomes the 500 response; an
    exception inside [prisma.$transaction] rolls the transaction back.

    Modelling conventions:
    - [Float] columns and JS numbers that hold prices are binary64 floats
      ([PrimFloat]); [Int] columns are [Z], taken to hold values of the
      32-bit range.  The range check of a write is modelled where a
      request sets an Int column to a number of its own (the product
      update); the other writes set values the handler has bounded by a
      stored Int, or differences of stored Ints, whose range errors are
      outside the model;
    - [String] ids are [string]; the values drawn by [@default(cuid())]
      are arguments of the handler that creates the rows;
    - a field of a JSON request body is a [JsField]: missing, [null] or a
      value of the type the handler expects;
    - timestamp columns are not modelled: no handler below reads them. *)

From Stdlib Require Import ZArith String List Bool Lia Sorted Permutation.
From Stdlib Require Import Floats.
From Stdlib Require Import Numbers.Cyclic.Int63.Uint63.
Import ListNotations.

Open Scope Z_scope.

(** ** The schema (prisma/schema.prisma) *)

Inductive UserRole : Set := CUSTOMER | MANAGER | ADMIN.

Inductive OrderStatus : Set :=
  PENDING | PROCESSING | SHIPPED | DELIVERED | CANCELLED.

Inductive ProductCategory : Set :=
  ELECTRONICS | CLOTHING | FOOD | BOOKS | OTHER.

Module Product.
Record t : Set := mk
  { id : string;
    name : string;
    description : string;
    image : option string;
    price : float;
    stock : Z;
    category : ProductCategory }.

Definition with_stock (p : t) (s : Z) : t :=
  mk (id p) (name p) (description p) (image p) (price p) s (category p).
End Product.

Module Order.
Record t : Set := mk
  { id : string;
    userId : string;
    status : OrderStatus;
    total : float;
    addressId : string }.

Definition with_status (o : t) (s : OrderStatus) : t :=
  mk (id o) (userId o) s (total o) (addressId o).
End Order.

Module OrderItem.
Record t : Set := mk
  { id : string;
    orderId : string;
    productId : string;
    quantity : Z;
    price : float }.
End OrderItem.

Module Review.
Record t : Set := mk
  { id : string;
    userId : string;
    productId : string;
    rating : Z;
    comment : option string }.
End Review.

Module Cart.
Record t : Set := mk
  { id : string;
    userId : string }.
End Cart.

Module CartItem.
Record t : Set := mk
  { id : string;
    cartId : string;
    productId : string;
    quantity : Z }.

Definition with_quantity (c : t) (q : Z) : t :=
  mk (id c) (cartId c) (productId c) q.
End CartItem.

Module Address.
Record t : Set := mk
  { id : string;
    userId : string;
    street : string;
    city : string;
    state : string;
    postalCode : string;
    country : string;
    isDefault : bool }.
End Address.

(** The store: one list of rows per table. *)
Record Store : Set := mkStore
  { products : list Product.t;
    orders : list Order.t;
    orderItems : list OrderItem.t;
    reviews : list Review.t;
    carts : list Cart.t;
    cartItems : list CartItem.t;
    addresses : list Address.t }.

Definition with_products (st : Store) (ps : list Product.t) : Store :=
  mkStore ps (orders st) (orderItems st) (reviews st) (carts st)
          (cartItems st) (addresses st).

Definition with_orders (st : Store) (os : list Order.t) : Store :=
  mkStore (products st) os (orderItems st) (reviews st) (carts st)
          (cartItems st) (addresses st).

Definition with_orderItems (st : Store) (ois : list OrderItem.t) : Store :=
  mkStore (products st) (orders st) ois (reviews st) (carts st)
          (cartItems st) (addresses st).

Definition with_reviews (st : Store) (rs : list Review.t) : Store :=
  mkStore (products st) (orders st) (orderItems st) rs (carts st)
          (cartItems st) (addresses st).

Definition with_cartItems (st : Store) (cis : list CartItem.t) : Store :=
  mkStore (products st) (orders st) (orderItems st) (reviews st) (carts st)
          cis (addresses st).

(** ** Sessions, request bodies, responses *)

(** [session.user] as [getServerSession] returns it; [None] is no session. *)
Module SessionUser.
Record t : Set := mk { id : string; role : UserRole }.
End SessionUser.

Definition Session : Set := option SessionUser.t.

(** A field destructured from [await request.json()]. *)
Inductive JsField (A : Type) : Type :=
| Undefined : JsField A
| Null : JsField A
| Value : A -> JsField A.
Arguments Undefined {A}.
Arguments Null {A}.
Arguments Value {A} _.

(** JS [!x] on a string field and on a number field. *)
Definition not_string (x : JsField string) : bool :=
  match x with
  | Value s => String.eqb s EmptyString
  | _ => true
  end.

Definition not_number (x : JsField Z) : bool :=
  match x with
  | Value n => n =? 0
  | _ => true
  end.

(** JS [x < k] and [x > k] on a number field ([null] converts to 0,
    [undefined] to NaN, for which every comparison is false). *)
Definition js_lt (x : JsField Z) (k : Z) : bool :=
  match x with
  | Value n => n <? k
  | Null => 0 <? k
  | Undefined => false
  end.

Definition js_gt (x : JsField Z) (k : Z) : bool :=
  match x with
  | Value n => k <? n
  | Null => k <? 0
  | Undefined => false
  end.

(** The JSON bodies the handlers answer with. *)
Inductive Body : Set :=
| ErrorBody (error : string)
| StockErrorBody (error : string) (productId : string)
| OrderWithItemsBody (o : Order.t)
                     (items : list (OrderItem.t * option Product.t))
| OrderBody (o : Order.t)
| ReviewBody (r : Review.t)
| CartItemBody (c : CartItem.t) (p : option Product.t)
| ProductBody (p : Product.t)
| SuccessBody.

Module NextResponse.
Record t : Set := mk { body : Body; status : Z }.

(** [NextResponse.json(body, { status })]; the status defaults to 200. *)
Definition json (b : Body) (s : Z) : t := mk b s.
Definition json_ok (b : Body) : t := mk b 200.
End NextResponse.

(** ** The Prisma client calls the handlers use *)

Section Prisma.
Context {Row : Set}.
Variable row_id : Row -> string.

(** [findUnique({ where: { id } })]. *)
Definition findById (i : string) (rows : list Row) : option Row :=
  find (fun r => String.eqb (row_id r) i) rows.

(** [update({ where: { id }, data })]: throws when no row has the id.
    The rewritten row is kept at its place in the list; where the
    database puts it among the rows of a later read without [orderBy] is
    not fixed, so nothing is to be read off that position. *)
Definition updateById (i : string) (f : Row -> Row) (rows : list Row)
  : option (list Row) :=
  if existsb (fun r => String.eqb (row_id r) i) rows
  then Some (map (fun r => if String.eqb (row_id r) i then f r else r) rows)
  else None.

(** [delete({ where: { id } })]: throws when no row has the id. *)
Definition deleteById (i : string) (rows : list Row) : option (list Row) :=
  if existsb (fun r => String.eqb (row_id r) i) rows
  then Some (filter (fun r => negb (String.eqb (row_id r) i)) rows)
  else None.

(** [create({ data })]. *)
Definition create (r : Row) (rows : list Row) : list Row := rows ++ [r].

(** [deleteMany({ where })]. *)
Definition deleteMany (where_ : Row -> bool) (rows : list Row) : list Row :=
  filter (fun r => negb (where_ r)) rows.
End Prisma.

(** A JS number holding the value of an [Int] column. *)
Definition float_of_Z (z : Z) : float :=
  if z <? 0
  then PrimFloat.opp (PrimFloat.of_uint63 (Uint63.of_Z (- z)))
  else PrimFloat.of_uint63 (Uint63.of_Z z).

(** ** POST /api/orders: checkout (src/app/api/orders/route.ts) *)

(** A cart line with its product, as [include: { items: { include:
    { product: true } } }] returns it. *)
Module CartItemWithProduct.
Record t : Set := mk
  { id : string;
    cartId : string;
    productId : string;
    quantity : Z;
    product : Product.t }.
End CartItemWithProduct.

(** The join of one cart line with its product row; [None] when the row
    is missing, where [item.product] is [null] and reading a property of
    it throws. *)
Definition include_product (st : Store) (c : CartItem.t)
  : option CartItemWithProduct.t :=
  match findById Product.id (CartItem.productId c) (products st) with
  | Some p =>
      Some (CartItemWithProduct.mk (CartItem.id c) (CartItem.cartId c)
              (CartItem.productId c) (CartItem.quantity c) p)
  | None => None
  end.

Fixpoint include_products (st : Store) (cs : list CartItem.t)
  : option (list CartItemWithProduct.t) :=
  match cs with
  | [] => Some []
  | c :: cs' =>
      match include_product st c, include_products st cs' with
      | Some i, Some is' => Some (i :: is')
      | _, _ => None
      end
  end.

(** [prisma.address.findUnique({ where: { id, userId } })]. *)
Definition find_address (st : Store) (addressId userId : string)
  : option Address.t :=
  find (fun a => String.eqb (Address.id a) addressId
                 && String.eqb (Address.userId a) userId) (addresses st).

(** [prisma.cart.findUnique({ where: { userId } })]. *)
Definition find_cart (st : Store) (userId : string) : option Cart.t :=
  find (fun c => String.eqb (Cart.userId c) userId) (carts st).

(** [cart.items]: the lines of a cart. *)
Definition cart_items (st : Store) (c : Cart.t) : list CartItem.t :=
  filter (fun i => String.eqb (CartItem.cartId i) (Cart.id c)) (cartItems st).

(** [cart.items.reduce((sum, item) => sum + item.product.price *
    item.quantity, 0)]. *)
Definition cart_total (items : list CartItemWithProduct.t) : float :=
  fold_left
    (fun sum item =>
       PrimFloat.add sum
         (PrimFloat.mul (Product.price (CartItemWithProduct.product item))
                        (float_of_Z (CartItemWithProduct.quantity item))))
    items PrimFloat.zero.

(** The loop "Verify all products have sufficient stock": the first line
    whose quantity exceeds the stock of its product. *)
Definition insufficient (item : CartItemWithProduct.t) : bool :=
  Product.stock (CartItemWithProduct.product item)
  <? CartItemWithProduct.quantity item.

Definition first_insufficient (items : list CartItemWithProduct.t)
  : option CartItemWithProduct.t :=
  find insufficient items.

(** What the handler holds when it enters [prisma.$transaction]: the
    values it read and computed before. *)
Module Checkout.
Record t : Set := mk
  { userId : string;
    addressId : string;
    cart : Cart.t;
    items : list CartItemWithProduct.t;
    total : float }.
End Checkout.

(** The part of the handler before the transaction.  It only reads the
    store: either it answers, or it goes on to the transaction. *)
Definition checkout_validate (session : Session) (addressId : JsField string)
           (st : Store) : NextResponse.t + Checkout.t :=
  match session with
  | None => inl (NextResponse.json (ErrorBody "Unauthorized") 401)
  | Some user =>
      match addressId with
      | Undefined | Null =>
          inl (NextResponse.json (ErrorBody "Shipping address is required") 400)
      | Value aid =>
          if String.eqb aid EmptyString then
            inl (NextResponse.json
                   (ErrorBody "Shipping address is required") 400)
          else
            match find_address st aid (SessionUser.id user) with
            | None =>
                inl (NextResponse.json
                       (ErrorBody "Invalid shipping address") 400)
            | Some _ =>
                match find_cart st (SessionUser.id user) with
                | None =>
                    inl (NextResponse.json
                           (ErrorBody "Your cart is empty") 400)
                | Some cart =>
                    match cart_items st cart with
                    | [] =>
                        inl (NextResponse.json
                               (ErrorBody "Your cart is empty") 400)
                    | lines =>
                        match include_products st lines with
                        | None =>
                            inl (NextResponse.json
                                   (ErrorBody "Failed to create order") 500)
                        | Some items =>
                            let total := cart_total items in
                            match first_insufficient items with
                            | Some item =>
                                let p := CartItemWithProduct.product item in
                                inl (NextResponse.json
                                       (StockErrorBody
                                          ("Not enough stock available for "
                                             ++ Product.name p)
                                          (Product.id p))
                                       400)
                            | None =>
                                inr (Checkout.mk (SessionUser.id user) aid
                                       cart items total)
                            end
                        end
                    end
                end
            end
      end
  end.

(** [items: { create: cart.items.map(...) }]: one OrderItem per line, the
    [k]-th with the id [cuid_item k]; the price is the product's price as
    it was read with the cart. *)
Fixpoint create_items (cuid_item : nat -> string) (k : nat) (orderId : string)
         (items : list CartItemWithProduct.t) : list OrderItem.t :=
  match items with
  | [] => []
  | item :: rest =>
      OrderItem.mk (cuid_item k) orderId
        (CartItemWithProduct.productId item)
        (CartItemWithProduct.quantity item)
        (Product.price (CartItemWithProduct.product item))
      :: create_items cuid_item (S k) orderId rest
  end.

(** [data: { stock: { decrement: item.quantity } }]. *)
Definition decrement (q : Z) (p : Product.t) : Product.t :=
  Product.with_stock p (Product.stock p - q).

(** The loop "Update product stock" of the transaction. *)
Fixpoint update_stock (items : list CartItemWithProduct.t)
         (ps : list Product.t) : option (list Product.t) :=
  match items with
  | [] => Some ps
  | item :: rest =>
      match updateById Product.id (CartItemWithProduct.productId item)
              (decrement (CartItemWithProduct.quantity item)) ps with
      | Some ps' => update_stock rest ps'
      | None => None
      end
  end.

(** The callback of [prisma.$transaction] on the store as it is when the
    transaction runs: [None] is an exception, which rolls back.  The
    order is returned with its items and their products as they are
    right after [tx.order.create]. *)
Definition checkout_transaction (cuid_order : string)
           (cuid_item : nat -> string) (c : Checkout.t) (st : Store)
  : option (Body * Store) :=
  let newOrder :=
    Order.mk cuid_order (Checkout.userId c) PENDING (Checkout.total c)
             (Checkout.addressId c) in
  let newItems := create_items cuid_item 0 cuid_order (Checkout.items c) in
  let included :=
    map (fun i => (i, findById Product.id (OrderItem.productId i)
                        (products st))) newItems in
  match update_stock (Checkout.items c) (products st) with
  | None => None
  | Some ps =>
      Some (OrderWithItemsBody newOrder included,
            mkStore ps
              (create newOrder (orders st))
              (orderItems st ++ newItems)
              (reviews st)
              (carts st)
              (deleteMany
                 (fun i => String.eqb (CartItem.cartId i)
                             (Cart.id (Checkout.cart c)))
                 (cartItems st))
              (addresses st))
  end.

(** The second half of the handler: the transaction and the answer. *)
Definition checkout_commit (cuid_order : string) (cuid_item : nat -> string)
           (c : Checkout.t) (st : Store) : NextResponse.t * Store :=
  match checkout_transaction cuid_order cuid_item c st with
  | Some (b, st') => (NextResponse.json b 201, st')
  | None => (NextResponse.json (ErrorBody "Failed to create order") 500, st)
  end.

(** The handler, run without another request in between. *)
Definition POST_orders (session : Session) (addressId : JsField string)
           (cuid_order : string) (cuid_item : nat -> string) (st : Store)
  : NextResponse.t * Store :=
  match checkout_validate session addressId st with
  | inl r => (r, st)
  | inr c => checkout_commit cuid_order cuid_item c st
  end.

(** ** PATCH /api/orders/[id]: status change (src/app/api/orders/[id]/route.ts) *)

Definition validStatuses : list string :=
  ["PENDING"; "PROCESSING"; "SHIPPED"; "DELIVERED"; "CANCELLED"]%string.

(** [validStatuses.includes(status)]. *)
Definition includes (l : list string) (s : string) : bool :=
  existsb (String.eqb s) l.

(** The value of the [OrderStatus] enum a string names, as the Prisma
    client reads [data: { status }]; [None] is its validation error. *)
Definition OrderStatus_of_string (s : string) : option OrderStatus :=
  if String.eqb s "PENDING" then Some PENDING
  else if String.eqb s "PROCESSING" then Some PROCESSING
  else if String.eqb s "SHIPPED" then Some SHIPPED
  else if String.eqb s "DELIVERED" then Some DELIVERED
  else if String.eqb s "CANCELLED" then Some CANCELLED
  else None.

Definition is_staff (r : UserRole) : bool :=
  match r with
  | MANAGER | ADMIN => true
  | CUSTOMER => false
  end.

Definition PATCH_order (session : Session) (params_id : string)
           (status : JsField string) (st : Store) : NextResponse.t * Store :=
  match session with
  | None => (NextResponse.json (ErrorBody "Unauthorized") 401, st)
  | Some user =>
      if negb (is_staff (SessionUser.role user)) then
        (NextResponse.json (ErrorBody "Forbidden") 403, st)
      else if String.eqb params_id EmptyString then
        (NextResponse.json (ErrorBody "Order ID is required") 400, st)
      else
        match status with
        | Undefined | Null =>
            (NextResponse.json (ErrorBody "Invalid status value") 400, st)
        | Value s =>
            if String.eqb s EmptyString || negb (includes validStatuses s) then
              (NextResponse.json (ErrorBody "Invalid status value") 400, st)
            else
              match findById Order.id params_id (orders st) with
              | None =>
                  (NextResponse.json (ErrorBody "Order not found") 404, st)
              | Some existingOrder =>
                  match OrderStatus_of_string s with
                  | None =>
                      (NextResponse.json
                         (ErrorBody "Internal server error") 500, st)
                  | Some s' =>
                      match updateById Order.id params_id
                              (fun o => Order.with_status o s') (orders st) with
                      | None =>
                          (NextResponse.json
                             (ErrorBody "Internal server error") 500, st)
                      | Some os =>
                          (NextResponse.json_ok
                             (OrderBody (Order.with_status existingOrder s')),
                           with_orders st os)
                      end
                  end
              end
        end
  end.

(** ** POST /api/reviews (src/app/api/reviews/route.ts) *)

(** [prisma.orderItem.findFirst({ where: { productId, order: { userId,
    status: 'DELIVERED' } } })]: the first OrderItem of the product whose
    order is the user's and is delivered. *)
Definition delivered_to (st : Store) (userId : string) (i : OrderItem.t)
  : bool :=
  match findById Order.id (OrderItem.orderId i) (orders st) with
  | Some o =>
      String.eqb (Order.userId o) userId
      && match Order.status o with DELIVERED => true | _ => false end
  | None => false
  end.

Definition hasPurchased (st : Store) (userId productId : string)
  : option OrderItem.t :=
  find (fun i => String.eqb (OrderItem.productId i) productId
                 && delivered_to st userId i) (orderItems st).

(** [prisma.review.findFirst({ where: { userId, productId } })]. *)
Definition existingReview (st : Store) (userId productId : string)
  : option Review.t :=
  find (fun r => String.eqb (Review.userId r) userId
                 && String.eqb (Review.productId r) productId) (reviews st).

(** [data: { rating, comment }] of [review.update]: a field that is
    [undefined] is left as it is, [null] clears the comment. *)
Definition update_review (rating : Z) (comment : JsField string)
           (r : Review.t) : Review.t :=
  Review.mk (Review.id r) (Review.userId r) (Review.productId r) rating
    match comment with
    | Undefined => Review.comment r
    | Null => None
    | Value c => Some c
    end.

(** [data: { userId, productId, rating, comment }] of [review.create]. *)
Definition new_review (cuid : string) (userId productId : string)
           (rating : Z) (comment : JsField string) : Review.t :=
  Review.mk cuid userId productId rating
    match comment with
    | Value c => Some c
    | _ => None
    end.

Definition POST_reviews (session : Session) (productId : JsField string)
           (rating : JsField Z) (comment : JsField string) (cuid : string)
           (st : Store) : NextResponse.t * Store :=
  match session with
  | None => (NextResponse.json (ErrorBody "Unauthorized") 401, st)
  | Some user =>
      match SessionUser.role user with
      | MANAGER | ADMIN =>
          (NextResponse.json
             (ErrorBody "Only customers can submit reviews") 403, st)
      | CUSTOMER =>
          if not_string productId then
            (NextResponse.json (ErrorBody "Product ID is required") 400, st)
          else if not_number rating || js_lt rating 1 || js_gt rating 5 then
            (NextResponse.json
               (ErrorBody "Rating must be between 1 and 5") 400, st)
          else
            match productId, rating with
            | Value pid, Value n =>
                match findById Product.id pid (products st) with
                | None =>
                    (NextResponse.json (ErrorBody "Product not found") 404, st)
                | Some _ =>
                    match hasPurchased st (SessionUser.id user) pid with
                    | None =>
                        (NextResponse.json
                           (ErrorBody
                              "You must purchase and receive this product before leaving a review")
                           403, st)
                    | Some _ =>
                        match existingReview st (SessionUser.id user) pid with
                        | Some existing =>
                            match updateById Review.id (Review.id existing)
                                    (update_review n comment) (reviews st) with
                            | Some rs =>
                                (NextResponse.json_ok
                                   (ReviewBody
                                      (update_review n comment existing)),
                                 with_reviews st rs)
                            | None =>
                                (NextResponse.json
                                   (ErrorBody "Failed to create review") 500,
                                 st)
                            end
                        | None =>
                            let review :=
                              new_review cuid (SessionUser.id user) pid n
                                comment in
                            (NextResponse.json (ReviewBody review) 201,
                             with_reviews st (create review (reviews st)))
                        end
                    end
                end
            | _, _ =>
                (* not reached: both fields passed the checks above *)
                (NextResponse.json
                   (ErrorBody "Failed to create review") 500, st)
            end
      end
  end.

(** ** PATCH and DELETE /api/cart/items/[id]
       (src/app/api/cart/items/[id]/route.ts) *)

Definition PATCH_cartItem (session : Session) (params_id : string)
           (quantity : JsField Z) (st : Store) : NextResponse.t * Store :=
  match session with
  | None => (NextResponse.json (ErrorBody "Unauthorized") 401, st)
  | Some user =>
      if not_number quantity || js_lt quantity 1 then
        (NextResponse.json (ErrorBody "Valid quantity is required") 400, st)
      else
        match findById CartItem.id params_id (cartItems st) with
        | None =>
            (NextResponse.json (ErrorBody "Cart item not found") 404, st)
        | Some cartItem =>
            match findById Cart.id (CartItem.cartId cartItem) (carts st) with
            | None =>
                (NextResponse.json
                   (ErrorBody "Failed to update cart item") 500, st)
            | Some cart =>
                if negb (String.eqb (Cart.userId cart) (SessionUser.id user))
                then (NextResponse.json (ErrorBody "Unauthorized") 401, st)
                else
                  match
                    findById Product.id (CartItem.productId cartItem)
                      (products st), quantity
                  with
                  | Some product, Value q =>
                      if Product.stock product <? q then
                        (NextResponse.json
                           (ErrorBody "Not enough stock available") 400, st)
                      else
                        match updateById CartItem.id params_id
                                (fun c => CartItem.with_quantity c q)
                                (cartItems st) with
                        | Some cis =>
                            (NextResponse.json_ok
                               (CartItemBody
                                  (CartItem.with_quantity cartItem q)
                                  (Some product)),
                             with_cartItems st cis)
                        | None =>
                            (NextResponse.json
                               (ErrorBody "Failed to update cart item") 500,
                             st)
                        end
                  | _, _ =>
                      (NextResponse.json
                         (ErrorBody "Failed to update cart item") 500, st)
                  end
            end
        end
  end.

Definition DELETE_cartItem (session : Session) (params_id : string)
           (st : Store) : NextResponse.t * Store :=
  match session with
  | None => (NextResponse.json (ErrorBody "Unauthorized") 401, st)
  | Some user =>
      match findById CartItem.id params_id (cartItems st) with
      | None => (NextResponse.json (ErrorBody "Cart item not found") 404, st)
      | Some cartItem =>
          match findById Cart.id (CartItem.cartId cartItem) (carts st) with
          | None =>
              (NextResponse.json
                 (ErrorBody "Failed to delete cart item") 500, st)
          | Some cart =>
              if negb (String.eqb (Cart.userId cart) (SessionUser.id user))
              then (NextResponse.json (ErrorBody "Unauthorized") 401, st)
              else
                match deleteById CartItem.id params_id (cartItems st) with
                | Some cis =>
                    (NextResponse.json_ok SuccessBody, with_cartItems st cis)
                | None =>
                    (NextResponse.json
                       (ErrorBody "Failed to delete cart item") 500, st)
                end
          end
      end
  end.

(** ** PUT /api/products/[id] (src/app/api/products/[id]/route.ts) *)

(** The body of a product update.  [price] and [stock] arrive as a
    number or as a string. *)
Module ProductInput.
Record t : Type := mk
  { name : JsField string;
    description : JsField string;
    image : JsField string;
    price : JsField (float + string);
    stock : JsField (Z + string);
    category : JsField string }.
End ProductInput.

Definition ProductCategory_of_string (s : string) : option ProductCategory :=
  if String.eqb s "ELECTRONICS" then Some ELECTRONICS
  else if String.eqb s "CLOTHING" then Some CLOTHING
  else if String.eqb s "FOOD" then Some FOOD
  else if String.eqb s "BOOKS" then Some BOOKS
  else if String.eqb s "OTHER" then Some OTHER
  else None.

(** The values of an [Int] column: 32-bit signed integers. *)
Definition Int_min : Z := -2147483648.
Definition Int_max : Z := 2147483647.

Definition is_Int (z : Z) : bool := (Int_min <=? z) && (z <=? Int_max).

Section ProductUpdate.
(** The JS built-ins [parseFloat] and [parseInt]; [parseInt] is [None]
    where JS gives NaN, which the client refuses for an [Int] column. *)
Variable parseFloat : string -> float.
Variable parseInt : string -> option Z.

(** The row [prisma.product.update] writes from [data]; [None] is an
    error of the client or of the database, which the handler answers
    with 500: a stock outside the 32-bit range of the [Int] column, or a
    price that is NaN or infinite (it has no JSON form for the query).
    [image: undefined] leaves the column as it is. *)
Definition updated_product (b : ProductInput.t) (p : Product.t)
  : option Product.t :=
  match ProductInput.name b, ProductInput.description b,
        ProductInput.price b, ProductInput.stock b,
        ProductInput.category b with
  | Value name, Value description, Value price, Value stock,
    Value category =>
      let image :=
        match ProductInput.image b with
        | Undefined => Product.image p
        | Null => None
        | Value i => Some i
        end in
      let price' :=
        match price with inl f => f | inr s => parseFloat s end in
      let stock' :=
        match stock with inl z => Some z | inr s => parseInt s end in
      match stock', ProductCategory_of_string category with
      | Some stock'', Some category' =>
          if is_Int stock'' && PrimFloat.is_finite price' then
            Some (Product.mk (Product.id p) name description image price'
                    stock'' category')
          else None
      | _, _ => None
      end
  | _, _, _, _, _ => None
  end.

(** [price === undefined] on a body field. *)
Definition is_undefined {A : Type} (x : JsField A) : bool :=
  match x with Undefined => true | _ => false end.

Definition PUT_product (session : Session) (params_id : string)
           (b : ProductInput.t) (st : Store) : NextResponse.t * Store :=
  match session with
  | None => (NextResponse.json (ErrorBody "Unauthorized") 401, st)
  | Some user =>
      if negb (is_staff (SessionUser.role user)) then
        (NextResponse.json (ErrorBody "Forbidden") 403, st)
      else if String.eqb params_id EmptyString then
        (NextResponse.json (ErrorBody "Product ID is required") 400, st)
      else
        match findById Product.id params_id (products st) with
        | None =>
            (NextResponse.json (ErrorBody "Product not found") 404, st)
        | Some existingProduct =>
            if not_string (ProductInput.name b)
               || not_string (ProductInput.description b)
               || is_undefined (ProductInput.price b)
               || is_undefined (ProductInput.stock b)
               || not_string (ProductInput.category b)
            then
              (NextResponse.json
                 (ErrorBody "Missing required fields") 400, st)
            else
              match updated_product b existingProduct with
              | None =>
                  (NextResponse.json
                     (ErrorBody "Failed to update product") 500, st)
              | Some product =>
                  match
                    updateById Product.id params_id
                      (fun p =>
                         match updated_product b p with
                         | Some p' => p'
                         | None => p
                         end) (products st)
                  with
                  | Some ps =>
                      (NextResponse.json_ok (ProductBody product),
                       with_products st ps)
                  | None =>
                      (NextResponse.json
                         (ErrorBody "Failed to update product") 500, st)
                  end
              end
        end
  end.


End ProductUpdate.

(** ** Requests in flight

    Every [await] of a handler is a round trip to the database, and other
    requests run in between.  A checkout makes its reads (address, cart,
    products) and validates them, and later runs its transaction: these
    are its two steps.  The transaction is taken as one atomic step. *)
Module InFlight.
Record Request : Type := mkRequest
  { session : Session;
    addressId : JsField string;
    cuid_order : string;
    cuid_item : nat -> string }.

Inductive Progress : Type :=
| Arrived (r : Request)
| Validated (r : Request) (c : Checkout.t)
| Answered (resp : NextResponse.t).

(** One step of one request on the current store. *)
Definition step (p : Progress) (st : Store) : Progress * Store :=
  match p with
  | Arrived r =>
      match checkout_validate (session r) (addressId r) st with
      | inl resp => (Answered resp, st)
      | inr c => (Validated r c, st)
      end
  | Validated r c =>
      match checkout_commit (cuid_order r) (cuid_item r) c st with
      | (resp, st') => (Answered resp, st')
      end
  | Answered resp => (Answered resp, st)
  end.

Fixpoint set_nth (n : nat) (p : Progress) (ps : list Progress)
  : list Progress :=
  match n, ps with
  | _, [] => []
  | O, _ :: ps' => p :: ps'
  | S n', q :: ps' => q :: set_nth n' p ps'
  end.

(** A schedule names, step by step, the request that moves next. *)
Fixpoint run (schedule : list nat) (ps : list Progress) (st : Store)
  : list Progress * Store :=
  match schedule with
  | [] => (ps, st)
  | n :: schedule' =>
      match nth_error ps n with
      | Some p =>
          match step p st with
          | (p', st') => run schedule' (set_nth n p' ps) st'
          end
      | None => run schedule' ps st
      end
  end.
End InFlight.

(** ** What the claims speak of *)

(** The quantity a list of cart lines orders of one product. *)
Fixpoint ordered_quantity (items : list CartItemWithProduct.t)
         (productId : string) : Z :=
  match items with
  | [] => 0
  | item :: rest =>
      (if String.eqb (CartItemWithProduct.productId item) productId
       then CartItemWithProduct.quantity item else 0)
      + ordered_quantity rest productId
  end.




(** The OrderItems of an order, as [include: { items: true }] reads them. *)
Definition items_of_order (st : Store) (orderId : string)
  : list OrderItem.t :=
  filter (fun i => String.eqb (OrderItem.orderId i) orderId) (orderItems st).

(** The number of reviews of a product. *)
Definition review_count (st : Store) (productId : string) : nat :=
  length (filter (fun r => String.eqb (Review.productId r) productId)
                 (reviews st)).

(** All stocks are non-negative. *)
Definition stock_nonneg (st : Store) : Prop :=
  Forall (fun p => 0 <= Product.stock p) (products st).

(** Ids are keys of the product table, and no cart has two lines of one
    product (what add-to-cart keeps when requests do not overlap). *)
Definition one_line_per_product (st : Store) : Prop :=
  NoDup (map Product.id (products st))
  /\ forall cart : Cart.t,
       NoDup (map CartItem.productId (cart_items st cart)).

(** Checkouts run one after the other, none overlapping another. *)
Definition run_checkouts (reqs : list InFlight.Request) (st : Store)
  : Store :=
  fold_left
    (fun s r =>
       snd (POST_orders (InFlight.session r) (InFlight.addressId r)
              (InFlight.cuid_order r) (InFlight.cuid_item r) s))
    reqs st.

(** §4.4: [canReview(user, product)] holds when some OrderItem names the
    product and its Order is the user's and is DELIVERED. *)
Definition canReview (st : Store) (userId productId : string) : Prop :=
  exists (i : OrderItem.t) (o : Order.t),
    In i (orderItems st)
    /\ OrderItem.productId i = productId
    /\ findById Order.id (OrderItem.orderId i) (orders st) = Some o
    /\ Order.userId o = userId
    /\ Order.status o = DELIVERED.

(** A review submission is answered with success: 201 for a new review,
    200 for an updated one. *)
Definition succeeds (r : NextResponse.t) : Prop :=
  NextResponse.status r = 200 \/ NextResponse.status r = 201.

(** A rating field outside 1..5, a missing one included. *)
Definition rating_out_of_range (rating : JsField Z) : Prop :=
  match rating with
  | Value n => n < 1 \/ 5 < n
  | _ => True
  end.

(** The ways a checkout fails validation, each with the answer the
    caller gets: §4.1 steps 2, 3 and 5. *)
Inductive ValidationFailure (user : SessionUser.t) (addressId : string)
          (st : Store) : NextResponse.t -> Prop :=
| InvalidAddress :
    find_address st addressId (SessionUser.id user) = None ->
    ValidationFailure user addressId st
      (NextResponse.json (ErrorBody "Invalid shipping address") 400)
| EmptyCart a :
    find_address st addressId (SessionUser.id user) = Some a ->
    (forall cart, find_cart st (SessionUser.id user) = Some cart ->
                  cart_items st cart = []) ->
    ValidationFailure user addressId st
      (NextResponse.json (ErrorBody "Your cart is empty") 400)
| InsufficientStock a cart before item after :
    find_address st addressId (SessionUser.id user) = Some a ->
    find_cart st (SessionUser.id user) = Some cart ->
    include_products st (cart_items st cart) = Some (before ++ item :: after) ->
    Forall (fun i => CartItemWithProduct.quantity i
                     <= Product.stock (CartItemWithProduct.product i))
           before ->
    CartItemWithProduct.quantity item
    > Product.stock (CartItemWithProduct.product item) ->
    ValidationFailure user addressId st
      (NextResponse.json
         (StockErrorBody
            ("Not enough stock available for "
               ++ Product.name (CartItemWithProduct.product item))
            (Product.id (CartItemWithProduct.product item)))
         400).

(** ** A sample store

    One product with one unit in stock.  Alice and Bob each have an
    address and a cart with one unit of it; Carol has an address and an
    empty cart; Mallory is a manager.  Alice has a delivered order of the
    product and has reviewed it. *)
Module Sample.
Definition widget : Product.t :=
  Product.mk "p1" "Widget" "A widget" None 10%float 1 OTHER.

Definition alice : SessionUser.t := SessionUser.mk "alice" CUSTOMER.
Definition bob : SessionUser.t := SessionUser.mk "bob" CUSTOMER.
Definition carol : SessionUser.t := SessionUser.mk "carol" CUSTOMER.
Definition mallory : SessionUser.t := SessionUser.mk "mallory" MANAGER.

Definition address_of (i u : string) : Address.t :=
  Address.mk i u "1 Main St" "Springfield" "IL" "62701" "US" false.

Definition store : Store :=
  mkStore
    [widget]
    [Order.mk "o1" "alice" DELIVERED 10%float "a1"]
    [OrderItem.mk "oi1" "o1" "p1" 1 10%float]
    [Review.mk "r1" "alice" "p1" 4 (Some "fine"%string)]
    [Cart.mk "c1" "alice"; Cart.mk "c2" "bob"; Cart.mk "c3" "carol"]
    [CartItem.mk "ci1" "c1" "p1" 1; CartItem.mk "ci2" "c2" "p1" 1]
    [address_of "a1" "alice"; address_of "a2" "bob";
     address_of "a3" "carol"].

(** Alice asks for two units. *)
Definition store_two_units : Store :=
  with_cartItems store
    [CartItem.mk "ci1" "c1" "p1" 2; CartItem.mk "ci2" "c2" "p1" 1].

Definition cuid_item (prefix : string) (k : nat) : string :=
  (prefix ++ String (Ascii.ascii_of_nat (48 + k)) EmptyString)%string.

Definition checkout_of (u : SessionUser.t) (a o i : string)
  : InFlight.Request :=
  InFlight.mkRequest (Some u) (Value a) o (cuid_item i).

Definition stocks (st : Store) : list Z := map Product.stock (products st).

(** Alice's cart holds the one unit twice, on two lines. *)
Definition store_two_lines : Store :=
  with_cartItems store
    [CartItem.mk "ci1" "c1" "p1" 1; CartItem.mk "ci3" "c1" "p1" 1].

(** The two checkouts of Alice and Bob, both arrived. *)
Definition two_checkouts : list InFlight.Progress :=
  [InFlight.Arrived (checkout_of alice "a1" "o2" "x");
   InFlight.Arrived (checkout_of bob "a2" "o3" "y")].

(** A manager doubles the price of the widget. *)
Definition double_price : ProductInput.t :=
  ProductInput.mk (Value "Widget"%string) (Value "A widget"%string)
    Undefined (Value (inl 20%float)) (Value (inl 5)) (Value "OTHER"%string).

(** Stand-ins for the JS built-ins, for the samples only: no sample
    sends a number as a string. *)
Definition parseFloat (s : string) : float := PrimFloat.nan.
Definition parseInt (s : string) : option Z := None.
End Sample.

(** * The rest of the route handlers *)

(** ** Tables and columns the handlers above do not read *)

Module User.
Record t : Set := mk
  { id : string;
    name : option string;
    email : string;
    image : option string;
    password : option string;
    role : UserRole }.
End User.

Module Account.
Record t : Set := mk
  { id : string;
    userId : string;
    type : string;
    provider : string;
    providerAccountId : string;
    access_token : option string;
    token_type : option string;
    scope : option string }.
End Account.

(** The database as the reading handlers see it: the store, the users,
    and the [createdAt] columns of orders and reviews, as functions of
    the row id (milliseconds). *)
Record Database : Type := mkDatabase
  { store : Store;
    users : list User.t;
    order_createdAt : string -> Z;
    review_createdAt : string -> Z }.

(** [orderBy: { createdAt: 'desc' }]: rows by decreasing key.  Rows with
    equal keys stay in storage order (the database leaves their order
    open). *)
Section OrderBy.
Context {Row : Type}.
Variable key : Row -> Z.

Fixpoint insert_desc (x : Row) (l : list Row) : list Row :=
  match l with
  | [] => [x]
  | y :: l' =>
      if key y <=? key x then x :: y :: l' else y :: insert_desc x l'
  end.

Fixpoint orderBy_desc (l : list Row) : list Row :=
  match l with
  | [] => []
  | x :: l' => insert_desc x (orderBy_desc l')
  end.
End OrderBy.

(** [user: { select: { id, name, email, role } }]. *)
Module UserSelect.
Record t : Set := mk
  { id : string;
    name : option string;
    email : string;
    role : UserRole }.
End UserSelect.

(** [user: { select: { name, image } }]. *)
Module UserName.
Record t : Set := mk
  { name : option string;
    image : option string }.
End UserName.

Definition select_user (us : list User.t) (userId : string)
  : option UserSelect.t :=
  match findById User.id userId us with
  | Some u =>
      Some (UserSelect.mk (User.id u) (User.name u) (User.email u)
              (User.role u))
  | None => None
  end.

Definition select_name (us : list User.t) (userId : string)
  : option UserName.t :=
  match findById User.id userId us with
  | Some u => Some (UserName.mk (User.name u) (User.image u))
  | None => None
  end.

(** [items: { include: { product: true } }] of an order. *)
Definition items_with_product (st : Store) (orderId : string)
  : list (OrderItem.t * option Product.t) :=
  map (fun i => (i, findById Product.id (OrderItem.productId i)
                      (products st)))
      (items_of_order st orderId).

(** An order as the list of orders shows it. *)
Module OrderEntry.
Record t : Set := mk
  { order : Order.t;
    items : list (OrderItem.t * option Product.t);
    user : option UserSelect.t }.
End OrderEntry.

(** An order as the single-order fetch shows it. *)
Module OrderDetail.
Record t : Set := mk
  { order : Order.t;
    items : list (OrderItem.t * option Product.t);
    address : option Address.t;
    user : option UserSelect.t }.
End OrderDetail.

(** A review with [user: { select: { name, image } }]. *)
Definition ReviewWithUser : Set := (Review.t * option UserName.t)%type.

(** The JSON bodies of the handlers of this part. *)
Inductive ReadBody : Set :=
| ReadError (error : string)
| OrdersBody (orders : list OrderEntry.t)
| OrderDetailBody (o : OrderDetail.t)
| ReviewsBody (reviews : list ReviewWithUser)
| ProductWithReviewsBody (p : Product.t) (reviews : list ReviewWithUser)
| MessageBody (message : string).

Module Reply.
Record t : Set := mk { body : ReadBody; status : Z }.
Definition json (b : ReadBody) (s : Z) : t := mk b s.
Definition json_ok (b : ReadBody) : t := mk b 200.
End Reply.

(** ** GET /api/orders (src/app/api/orders/route.ts) *)

(** [where]: everything for a manager or admin, the caller's own orders
    for the others. *)
Definition orders_where (user : SessionUser.t) (o : Order.t) : bool :=
  if is_staff (SessionUser.role user) then true
  else String.eqb (Order.userId o) (SessionUser.id user).

Definition order_entry (db : Database) (o : Order.t) : OrderEntry.t :=
  OrderEntry.mk o (items_with_product (store db) (Order.id o))
    (select_user (users db) (Order.userId o)).

Definition GET_orders (session : Session) (db : Database) : Reply.t :=
  match session with
  | None => Reply.json (ReadError "Unauthorized") 401
  | Some user =>
      Reply.json_ok
        (OrdersBody
           (map (order_entry db)
              (orderBy_desc (fun o => order_createdAt db (Order.id o))
                 (filter (orders_where user) (orders (store db))))))
  end.

(** ** GET /api/orders/[id] (src/app/api/orders/[id]/route.ts) *)

Definition order_detail (db : Database) (o : Order.t) : OrderDetail.t :=
  OrderDetail.mk o (items_with_product (store db) (Order.id o))
    (findById Address.id (Order.addressId o) (addresses (store db)))
    (select_user (users db) (Order.userId o)).

Definition GET_order (session : Session) (params_id : string)
           (db : Database) : Reply.t :=
  match session with
  | None => Reply.json (ReadError "Unauthorized") 401
  | Some user =>
      if String.eqb params_id EmptyString then
        Reply.json (ReadError "Order ID is required") 400
      else
        match findById Order.id params_id (orders (store db)) with
        | None => Reply.json (ReadError "Order not found") 404
        | Some order =>
            match SessionUser.role user with
            | CUSTOMER =>
                if negb (String.eqb (Order.userId order)
                           (SessionUser.id user))
                then Reply.json (ReadError "Forbidden") 403
                else Reply.json_ok (OrderDetailBody (order_detail db order))
            | _ => Reply.json_ok (OrderDetailBody (order_detail db order))
            end
        end
  end.

(** ** GET /api/reviews (src/app/api/reviews/route.ts) *)

Definition review_with_user (db : Database) (r : Review.t)
  : ReviewWithUser :=
  (r, select_name (users db) (Review.userId r)).

(** [productId] is [searchParams.get('productId')]: [None] when the
    query has no such parameter. *)
Definition GET_reviews (productId : option string) (db : Database)
  : Reply.t :=
  match productId with
  | None => Reply.json (ReadError "Product ID is required") 400
  | Some pid =>
      if String.eqb pid EmptyString then
        Reply.json (ReadError "Product ID is required") 400
      else
        Reply.json_ok
          (ReviewsBody
             (map (review_with_user db)
                (orderBy_desc (fun r => review_createdAt db (Review.id r))
                   (filter (fun r => String.eqb (Review.productId r) pid)
                      (reviews (store db))))))
  end.

(** ** GET and DELETE /api/products/[id]
       (src/app/api/products/[id]/route.ts) *)

Definition GET_product (params_id : string) (db : Database) : Reply.t :=
  if String.eqb params_id EmptyString then
    Reply.json (ReadError "Product ID is required") 400
  else
    match findById Product.id params_id (products (store db)) with
    | None => Reply.json (ReadError "Product not found") 404
    | Some product =>
        Reply.json_ok
          (ProductWithReviewsBody product
             (map (review_with_user db)
                (filter (fun r => String.eqb (Review.productId r)
                                    (Product.id product))
                   (reviews (store db)))))
    end.

(** The rows that name a product besides OrderItems.  Their relations
    to Product are required ones without [onDelete], so the database
    refuses ([Restrict]) to delete a product they name, and
    [prisma.product.delete] throws. *)
Definition restricts_delete (st : Store) (productId : string) : bool :=
  existsb (fun i => String.eqb (OrderItem.productId i) productId)
          (orderItems st)
  || existsb (fun c => String.eqb (CartItem.productId c) productId)
             (cartItems st)
  || existsb (fun r => String.eqb (Review.productId r) productId)
             (reviews st).

Definition DELETE_product (session : Session) (params_id : string)
           (st : Store) : Reply.t * Store :=
  match session with
  | None => (Reply.json (ReadError "Unauthorized") 401, st)
  | Some user =>
      if negb (is_staff (SessionUser.role user)) then
        (Reply.json (ReadError "Forbidden") 403, st)
      else if String.eqb params_id EmptyString then
        (Reply.json (ReadError "Product ID is required") 400, st)
      else
        match findById Product.id params_id (products st) with
        | None => (Reply.json (ReadError "Product not found") 404, st)
        | Some existingProduct =>
            match find (fun i => String.eqb (OrderItem.productId i) params_id)
                       (orderItems st) with
            | Some _ =>
                (Reply.json
                   (ReadError
                      "Cannot delete product with existing orders. Consider updating stock to 0 instead.")
                   400, st)
            | None =>
                if restricts_delete st params_id then
                  (Reply.json (ReadError "Failed to delete product") 500, st)
                else
                  match deleteById Product.id params_id (products st) with
                  | Some ps =>
                      (Reply.json_ok
                         (MessageBody "Product deleted successfully"),
                       with_products st ps)
                  | None =>
                      (Reply.json (ReadError "Failed to delete product") 500,
                       st)
                  end
            end
        end
  end.

(** ** The middleware (src/middleware.ts) *)

(** JS [s.startsWith(p)] and [s.includes(p)]. *)
Definition startsWith (s p : string) : bool := String.prefix p s.

Definition str_includes (s p : string) : bool :=
  match String.index 0 p s with
  | Some _ => true
  | None => false
  end.

Definition PUBLIC_PATHS : list string :=
  ["/"; "/auth/signin"; "/auth/register"; "/auth/error"]%string.

Definition PUBLIC_API_PATHS : list string := ["/api/auth"]%string.

(** The JWT of the session, as far as the code reads it. *)
Module Token.
Record t : Set := mk { id : option string; role : option string }.
End Token.

Inductive MiddlewareResult : Set :=
| Next
| RedirectSignIn (callbackUrl : string)
| RedirectHome.

Definition isPublicPath (pathname : string) : bool :=
  existsb (fun path => String.eqb pathname path
                       || startsWith pathname (path ++ "/"))
          PUBLIC_PATHS.

Definition isPublicApiPath (pathname : string) : bool :=
  existsb (fun path => startsWith pathname path) PUBLIC_API_PATHS.

(** [token.role !== 'MANAGER' && token.role !== 'ADMIN']. *)
Definition not_staff_role (role : option string) : bool :=
  match role with
  | Some r => negb (String.eqb r "MANAGER") && negb (String.eqb r "ADMIN")
  | None => true
  end.

Definition isStaffPage (pathname : string) : bool :=
  startsWith pathname "/products/create"
  || startsWith pathname "/products/edit"
  || startsWith pathname "/orders/manage".

Section Middleware.
(** The JS built-in [encodeURI]. *)
Variable encodeURI : string -> string.

(** [pathname] is [request.nextUrl.pathname], [url] is [request.url],
    [token] is what [getToken] gives. *)
Definition middleware (pathname url : string) (token : option Token.t)
  : MiddlewareResult :=
  if isPublicPath pathname
     || isPublicApiPath pathname
     || startsWith pathname "/_next"
     || str_includes pathname "/favicon.ico"
  then Next
  else
    match token with
    | None => RedirectSignIn (encodeURI url)
    | Some t =>
        if isStaffPage pathname && not_staff_role (Token.role t)
        then RedirectHome
        else Next
    end.
End Middleware.

(** ** Sign-in (src/app/api/auth/[...nextauth]/route.ts) *)

(** The name of a role, as the Prisma client gives an enum value. *)
Definition role_name (r : UserRole) : string :=
  match r with
  | CUSTOMER => "CUSTOMER"
  | MANAGER => "MANAGER"
  | ADMIN => "ADMIN"
  end.

Module Credentials.
Record t : Set := mk { email : JsField string; password : JsField string }.
End Credentials.

(** What [authorize] returns, and what the [jwt] callback gets as
    [user]. *)
Module AuthUser.
Record t : Set := mk
  { id : string;
    email : string;
    name : option string;
    image : option string;
    role : option string }.
End AuthUser.

(** [prisma.user.findUnique({ where: { email } })]. *)
Definition find_user_by_email (us : list User.t) (email : string)
  : option User.t :=
  find (fun u => String.eqb (User.email u) email) us.

Section Authorize.
(** [bcrypt.compare(password, hash)]. *)
Variable compare : string -> string -> bool.

Definition authorize (credentials : option Credentials.t)
           (us : list User.t) : option AuthUser.t :=
  match credentials with
  | None => None
  | Some c =>
      match Credentials.email c, Credentials.password c with
      | Value email, Value password =>
          if String.eqb email EmptyString || String.eqb password EmptyString
          then None
          else
            match find_user_by_email us email with
            | None => None
            | Some user =>
                match User.password user with
                | None => None
                | Some hash =>
                    if String.eqb hash EmptyString then None
                    else if compare password hash then
                      Some (AuthUser.mk (User.id user) (User.email user)
                              (User.name user) (User.image user)
                              (Some (role_name (User.role user))))
                    else None
                end
            end
      | _, _ => None
      end
  end.
End Authorize.

(** The [jwt] callback: [user] is there on sign-in only. *)
Definition jwt (token : Token.t) (user : option AuthUser.t) : Token.t :=
  match user with
  | Some u => Token.mk (Some (AuthUser.id u)) (AuthUser.role u)
  | None => token
  end.

(** [session.user] before and after the [session] callback. *)
Module SessionData.
Record t : Set := mk
  { name : option string;
    email : option string;
    image : option string;
    id : option string;
    role : option string }.
End SessionData.

(** The [session] callback, on [session.user]; [None] is a session
    without [user]. *)
Definition session_callback (user : option SessionData.t) (token : Token.t)
  : option SessionData.t :=
  match user with
  | Some u =>
      Some (SessionData.mk (SessionData.name u) (SessionData.email u)
              (SessionData.image u) (Token.id token) (Token.role token))
  | None => None
  end.

(** The [signIn] callback. *)
Module SignInUser.
Record t : Set := mk
  { email : option string;
    name : JsField string;
    image : JsField string }.
End SignInUser.

Module SignInAccount.
Record t : Set := mk
  { type : string;
    provider : string;
    providerAccountId : string;
    access_token : option string;
    token_type : option string;
    scope : option string }.
End SignInAccount.

(** A column written from a field that may be [undefined] or [null]. *)
Definition written {A : Type} (x : JsField A) (old : option A) : option A :=
  match x with
  | Undefined => old
  | Null => None
  | Value a => Some a
  end.

(** [@@unique([provider, providerAccountId])]. *)
Definition account_taken (accs : list Account.t) (a : SignInAccount.t)
  : bool :=
  existsb (fun x => String.eqb (Account.provider x)
                      (SignInAccount.provider a)
                    && String.eqb (Account.providerAccountId x)
                         (SignInAccount.providerAccountId a)) accs.

(** The callback on the two tables it writes; [cuid_user] and
    [cuid_account] are the ids of the rows it may create.  An exception
    is caught and gives [false]; no write precedes one. *)
Definition signIn (user : SignInUser.t) (account : option SignInAccount.t)
           (cuid_user cuid_account : string)
           (us : list User.t) (accs : list Account.t)
  : bool * list User.t * list Account.t :=
  match account with
  | None => (true, us, accs)
  | Some a =>
      if negb (String.eqb (SignInAccount.provider a) "google") then
        (true, us, accs)
      else
        match SignInUser.email user with
        | None => (false, us, accs)
        | Some email =>
            match find_user_by_email us email with
            | None =>
                (true,
                 create
                   (User.mk cuid_user
                      (written (SignInUser.name user) None) email
                      (written (SignInUser.image user) None) None CUSTOMER)
                   us,
                 accs)
            | Some existingUser =>
                let linked :=
                  existsb
                    (fun acc => String.eqb (Account.userId acc)
                                  (User.id existingUser)
                                && String.eqb (Account.provider acc) "google")
                    accs in
                let update (u : User.t) : User.t :=
                  if String.eqb (User.email u) email then
                    User.mk (User.id u)
                      (written (SignInUser.name user) (User.name u))
                      (User.email u)
                      (written (SignInUser.image user) (User.image u))
                      (User.password u) (User.role u)
                  else u in
                if linked then (true, map update us, accs)
                else if account_taken accs a then (false, us, accs)
                else
                  (true, map update us,
                   create
                     (Account.mk cuid_account (User.id existingUser)
                        (SignInAccount.type a) (SignInAccount.provider a)
                        (SignInAccount.providerAccountId a)
                        (SignInAccount.access_token a)
                        (SignInAccount.token_type a)
                        (SignInAccount.scope a))
                     accs)
            end
        end
  end.

(** ** What the further properties speak of *)

(** The units in stock, over all products, and the units a list of cart
    lines orders. *)
Definition total_stock (st : Store) : Z :=
  fold_right Z.add 0 (map Product.stock (products st)).


(** Every row that names a product names one that is in the table. *)
Definition product_known (st : Store) (productId : string) : Prop :=
  findById Product.id productId (products st) <> None.

Definition product_refs_ok (st : Store) : Prop :=
  Forall (fun i => product_known st (OrderItem.productId i)) (orderItems st)
  /\ Forall (fun c => product_known st (CartItem.productId c)) (cartItems st)
  /\ Forall (fun r => product_known st (Review.productId r)) (reviews st).

(** At most one review per user and product. *)
Definition review_key (r : Review.t) : string * string :=
  (Review.userId r, Review.productId r).

Definition one_review_per_pair (st : Store) : Prop :=
  NoDup (map review_key (reviews st)).

(** Rows by decreasing key. *)
Definition sorted_desc {Row : Type} (key : Row -> Z) (l : list Row) : Prop :=
  StronglySorted (fun x y => key y <= key x) l.

(** The orders in the body of a reply to GET /api/orders. *)
Definition listed_orders (r : Reply.t) : list Order.t :=
  match Reply.body r with
  | OrdersBody es => map OrderEntry.order es
  | _ => []
  end.

(** The reviews in the body of a reply to GET /api/reviews. *)
Definition listed_reviews (r : Reply.t) : list Review.t :=
  match Reply.body r with
  | ReviewsBody rs => map fst rs
  | _ => []
  end.

(** More of the sample: the users, and the database around the store. *)
Module SampleDb.
Definition users : list User.t :=
  [User.mk "alice" (Some "Alice"%string) "alice@example.com" None
     (Some "hash-a"%string) CUSTOMER;
   User.mk "bob" (Some "Bob"%string) "bob@example.com" None None CUSTOMER;
   User.mk "mallory" None "mallory@example.com" None
     (Some "hash-m"%string) MANAGER].

Definition createdAt (i : string) : Z :=
  if String.eqb i "o1" then 100
  else if String.eqb i "o2" then 200
  else if String.eqb i "r1" then 150
  else 0.

Definition db_of (st : Store) : Database :=
  mkDatabase st users createdAt createdAt.

Definition db : Database := db_of Sample.store.

(** A stand-in for [bcrypt.compare]: the hash of a password is the
    password after "hash-". *)
Definition compare (password hash : string) : bool :=
  String.eqb hash ("hash-" ++ password).

Definition encodeURI (s : string) : string := s.

Definition google : SignInAccount.t :=
  SignInAccount.mk "oauth" "google" "g-1" None None None.
End SampleDb.

(** * Proofs *)

(** ** The Prisma calls *)

Section PrismaFacts.
Context {Row : Set}.
Variable row_id : Row -> string.

Lemma findById_existsb (i : string) (rows : list Row) (r : Row) :
  findById row_id i rows = Some r ->
  existsb (fun x => String.eqb (row_id x) i) rows = true.
Proof.
  unfold findById. intros H. apply existsb_exists.
  exists r. split.
  - eapply find_some; eassumption.
  - apply (find_some _ _ H).
Qed.

Lemma findById_id (i : string) (rows : list Row) (r : Row) :
  findById row_id i rows = Some r -> row_id r = i.
Proof.
  unfold findById. intros H. apply find_some in H.
  apply String.eqb_eq, H.
Qed.

Lemma updateById_found (i : string) (f : Row -> Row) (rows : list Row)
      (r : Row) :
  findById row_id i rows = Some r ->
  updateById row_id i f rows
  = Some (map (fun x => if String.eqb (row_id x) i then f x else x) rows).
Proof.
  intros H. unfold updateById.
  now rewrite (findById_existsb _ _ _ H).
Qed.

Lemma updateById_length (i : string) (f : Row -> Row)
      (rows rows' : list Row) :
  updateById row_id i f rows = Some rows' -> length rows' = length rows.
Proof.
  unfold updateById.
  destruct (existsb _ rows); [|discriminate].
  intros [= <-]. apply length_map.
Qed.

Lemma existsb_map_id (i : string) (g : Row -> Row) (rows : list Row) :
  (forall x, row_id (g x) = row_id x) ->
  existsb (fun x => String.eqb (row_id x) i) (map g rows)
  = existsb (fun x => String.eqb (row_id x) i) rows.
Proof.
  intros Hg. induction rows as [|x rows IH]; simpl.
  - reflexivity.
  - now rewrite Hg, IH.
Qed.
End PrismaFacts.

(** ** Checkout *)

Lemma include_product_fields (st : Store) (c : CartItem.t)
      (i : CartItemWithProduct.t) :
  include_product st c = Some i ->
  CartItemWithProduct.productId i = CartItem.productId c
  /\ CartItemWithProduct.quantity i = CartItem.quantity c
  /\ CartItemWithProduct.cartId i = CartItem.cartId c
  /\ findById Product.id (CartItem.productId c) (products st)
     = Some (CartItemWithProduct.product i).
Proof.
  unfold include_product.
  destruct (findById Product.id (CartItem.productId c) (products st)) as [p|];
    [|discriminate].
  intros [= <-]. simpl. auto.
Qed.

(** The join keeps the lines, one by one. *)
Lemma include_products_Forall2 (st : Store) (cs : list CartItem.t) :
  forall items,
    include_products st cs = Some items ->
    Forall2 (fun c i => include_product st c = Some i) cs items.
Proof.
  induction cs as [|c cs IH]; simpl; intros items H.
  - injection H as <-. constructor.
  - destruct (include_product st c) as [i|] eqn:Hi; [|discriminate].
    destruct (include_products st cs) as [is'|]; [|discriminate].
    injection H as <-. constructor; auto.
Qed.

Lemma include_products_present (st : Store) (cs : list CartItem.t)
      (items : list CartItemWithProduct.t) :
  include_products st cs = Some items ->
  Forall (fun i => existsb
                     (fun p => String.eqb (Product.id p)
                                 (CartItemWithProduct.productId i))
                     (products st) = true) items.
Proof.
  intros H. apply include_products_Forall2 in H.
  induction H as [|c i cs items Hi _ IH]; constructor; auto.
  apply include_product_fields in Hi as (-> & _ & _ & Hp).
  eapply findById_existsb; eassumption.
Qed.

Lemma include_products_nonempty (st : Store) (cs : list CartItem.t)
      (items : list CartItemWithProduct.t) :
  include_products st cs = Some items -> cs <> [] -> items <> [].
Proof.
  intros H Hne. apply include_products_Forall2 in H.
  destruct H; [congruence | discriminate].
Qed.

(** The stock loop decrements every product by what the lines order of
    it, and does not throw when the products of the lines exist. *)
Lemma update_stock_spec (items : list CartItemWithProduct.t) :
  forall ps,
    Forall (fun i => existsb
                       (fun p => String.eqb (Product.id p)
                                   (CartItemWithProduct.productId i))
                       ps = true) items ->
    update_stock items ps
    = Some (map (fun p => Product.with_stock p
                            (Product.stock p
                             - ordered_quantity items (Product.id p))) ps).
Proof.
  induction items as [|item rest IH]; intros ps Hall; simpl.
  - f_equal. rewrite <- (map_id ps) at 1. apply map_ext.
    intros [i n d im pr s c]. unfold Product.with_stock. simpl.
    f_equal. lia.
  - inversion Hall as [|? ? Hitem Hrest]; subst.
    unfold updateById. rewrite Hitem.
    rewrite IH.
    + f_equal. rewrite map_map. apply map_ext.
      intros [i n d im pr s c]. simpl.
      destruct (String.eqb i (CartItemWithProduct.productId item)) eqn:E.
      * apply String.eqb_eq in E. subst i.
        rewrite String.eqb_refl. unfold Product.with_stock. simpl.
        f_equal. lia.
      * rewrite String.eqb_sym, E. unfold Product.with_stock. simpl.
        f_equal.
    + eapply Forall_impl; [|exact Hrest].
      intros i Hi. rewrite existsb_map_id; [exact Hi|].
      intros x. destruct (String.eqb (Product.id x) _); reflexivity.
Qed.



Lemma first_insufficient_first (before after : list CartItemWithProduct.t)
      (item : CartItemWithProduct.t) :
  Forall (fun i => CartItemWithProduct.quantity i
                   <= Product.stock (CartItemWithProduct.product i)) before ->
  CartItemWithProduct.quantity item
  > Product.stock (CartItemWithProduct.product item) ->
  first_insufficient (before ++ item :: after) = Some item.
Proof.
  unfold first_insufficient.
  induction 1 as [|i items Hi _ IH]; simpl; intros Hgt.
  - unfold insufficient.
    destruct (Z.ltb_spec (Product.stock (CartItemWithProduct.product item))
                (CartItemWithProduct.quantity item)); [reflexivity | lia].
  - unfold insufficient at 1.
    destruct (Z.ltb_spec (Product.stock (CartItemWithProduct.product i))
                (CartItemWithProduct.quantity i)); [lia | auto].
Qed.

(** X1. The part before the transaction leaves the store alone and a
    failed transaction is rolled back, so a checkout that is not answered
    201 (no session, no address, an error of the database) changed
    nothing. *)
Lemma POST_orders_not_created (session : Session) (addressId : JsField string)
      (cuid_order : string) (cuid_item : nat -> string) (st : Store) :
  NextResponse.status
    (fst (POST_orders session addressId cuid_order cuid_item st)) <> 201 ->
  snd (POST_orders session addressId cuid_order cuid_item st) = st.
Proof.
  unfold POST_orders, checkout_commit.
  destruct (checkout_validate session addressId st) as [r|c]; simpl.
  - reflexivity.
  - destruct (checkout_transaction cuid_order cuid_item c st) as [[b st']|];
      simpl; [congruence | reflexivity].
Qed.


(** The total is the left-to-right binary64 sum of price times quantity
    over the lines. *)
Lemma cart_total_last (items : list CartItemWithProduct.t)
      (item : CartItemWithProduct.t) :
  cart_total (items ++ [item])
  = PrimFloat.add (cart_total items)
      (PrimFloat.mul (Product.price (CartItemWithProduct.product item))
                     (float_of_Z (CartItemWithProduct.quantity item))).
Proof.
  unfold cart_total. now rewrite fold_left_app.
Qed.



(** C1. Checkout is all-or-nothing.  A checkout that fails validation
    (the address is not the caller's, the cart is missing or empty, or a
    line asks for more than the current stock of its product) answers
    with the error of that failure and leaves the store as it was: no
    Order, no OrderItem, no stock decrement, no CartItem deleted.  A
    stock violation is answered with status 400, the message "Not enough
    stock available for <name>" and the id of the product of the first
    offending line. *)
Theorem checkout_all_or_nothing
        (user : SessionUser.t) (addressId cuid_order : string)
        (cuid_item : nat -> string) (st : Store) (resp : NextResponse.t) :
  addressId <> EmptyString ->
  ValidationFailure user addressId st resp ->
  POST_orders (Some user) (Value addressId) cuid_order cuid_item st
  = (resp, st).
Proof.
  intros Hne Hfail.
  unfold POST_orders, checkout_validate.
  apply String.eqb_neq in Hne. rewrite Hne.
  destruct Hfail as [Ha | a Ha Hcart | a cart before item after Ha Hc Hi Hb Hgt].
  - now rewrite Ha.
  - rewrite Ha.
    destruct (find_cart st (SessionUser.id user)) as [cart|]; [|reflexivity].
    now rewrite (Hcart cart eq_refl).
  - rewrite Ha, Hc.
    destruct (cart_items st cart) as [|c cs] eqn:Hlines.
    + simpl in Hi. destruct before; discriminate.
    + rewrite Hi, (first_insufficient_first before after item Hb Hgt).
      reflexivity.
Qed.

Lemma checkout_all_or_nothing_witness :
  POST_orders (Some Sample.alice) (Value "a1"%string) "o2"
    (Sample.cuid_item "x") Sample.store_two_units
  = (NextResponse.json
       (StockErrorBody "Not enough stock available for Widget" "p1") 400,
     Sample.store_two_units).
Proof.
  apply (checkout_all_or_nothing Sample.alice "a1" "o2" (Sample.cuid_item "x")
           Sample.store_two_units).
  - discriminate.
  - apply (InsufficientStock Sample.alice "a1" Sample.store_two_units
             (Sample.address_of "a1" "alice") (Cart.mk "c1" "alice") []
             (CartItemWithProduct.mk "ci1" "c1" "p1" 2 Sample.widget) []).
    + reflexivity.
    + reflexivity.
    + reflexivity.
    + constructor.
    + simpl. lia.
Defined.



(** The handler run alone is its two steps, one after the other. *)
Lemma run_alone (r : InFlight.Request) (st : Store) :
  InFlight.run [0%nat; 0%nat] [InFlight.Arrived r] st
  = ([InFlight.Answered
        (fst (POST_orders (InFlight.session r) (InFlight.addressId r)
                (InFlight.cuid_order r) (InFlight.cuid_item r) st))],
     snd (POST_orders (InFlight.session r) (InFlight.addressId r)
            (InFlight.cuid_order r) (InFlight.cuid_item r) st)).
Proof.
  unfold POST_orders. simpl.
  destruct (checkout_validate (InFlight.session r) (InFlight.addressId r) st)
    as [resp|c]; simpl.
  - reflexivity.
  - destruct (checkout_commit (InFlight.cuid_order r) (InFlight.cuid_item r)
                c st) as [resp st']. reflexivity.
Qed.

(** C3. Two checkouts of the last unit of a product, each validated
    before the transaction of the other: both are answered 201 and the
    stock of the product is -1.  The stock check of the handler reads the
    stock before its transaction and the decrement does not check. *)
Theorem concurrent_checkouts_negative_stock :
  stock_nonneg Sample.store
  /\ map (fun p => match p with
                   | InFlight.Answered resp => NextResponse.status resp
                   | _ => 0
                   end)
         (fst (InFlight.run [0%nat; 1%nat; 0%nat; 1%nat]
                 Sample.two_checkouts Sample.store))
     = [201; 201]
  /\ Sample.stocks
       (snd (InFlight.run [0%nat; 1%nat; 0%nat; 1%nat]
               Sample.two_checkouts Sample.store))
     = [-1]
  /\ ~ stock_nonneg
       (snd (InFlight.run [0%nat; 1%nat; 0%nat; 1%nat]
               Sample.two_checkouts Sample.store)).
Proof.
  split; [|split; [|split]].
  - repeat constructor. simpl. lia.
  - reflexivity.
  - reflexivity.
  - intros H. inversion H as [|p ps Hp _]; subst.
    simpl in Hp. lia.
Qed.

(** The same without a second request: a cart with two lines of one
    product, each within the stock, together above it. *)
Lemma two_lines_negative_stock :
  stock_nonneg Sample.store_two_lines
  /\ NextResponse.status
       (fst (POST_orders (Some Sample.alice) (Value "a1"%string) "o2"
               (Sample.cuid_item "x") Sample.store_two_lines)) = 201
  /\ Sample.stocks
       (snd (POST_orders (Some Sample.alice) (Value "a1"%string) "o2"
               (Sample.cuid_item "x") Sample.store_two_lines)) = [-1].
Proof.
  split; [|split].
  - repeat constructor. simpl. lia.
  - reflexivity.
  - reflexivity.
Qed.

(** C8 as stated fails: Carol's cart is empty and the address she names
    is Alice's; the answer is not the empty-cart error. *)
Lemma empty_cart_foreign_address :
  (forall cart,
      find_cart Sample.store (SessionUser.id Sample.carol) = Some cart ->
      cart_items Sample.store cart = [])
  /\ fst (POST_orders (Some Sample.carol) (Value "a1"%string) "o2"
            (Sample.cuid_item "x") Sample.store)
     = NextResponse.json (ErrorBody "Invalid shipping address") 400
  /\ fst (POST_orders (Some Sample.carol) (Value "a1"%string) "o2"
            (Sample.cuid_item "x") Sample.store)
     <> NextResponse.json (ErrorBody "Your cart is empty") 400.
Proof.
  split; [|split].
  - intros cart H. injection H as <-. reflexivity.
  - reflexivity.
  - discriminate.
Qed.

(** C8, amended.  The address check comes first.  For a caller whose
    cart is missing or empty and who names an address: when the address
    is the caller's the answer is the empty-cart error, otherwise it is
    the invalid-address error; the store is unchanged either way. *)
Theorem address_check_precedes_cart_check
        (user : SessionUser.t) (addressId cuid_order : string)
        (cuid_item : nat -> string) (st : Store) :
  addressId <> EmptyString ->
  (forall cart, find_cart st (SessionUser.id user) = Some cart ->
                cart_items st cart = []) ->
  POST_orders (Some user) (Value addressId) cuid_order cuid_item st
  = (NextResponse.json
       (ErrorBody
          match find_address st addressId (SessionUser.id user) with
          | Some _ => "Your cart is empty"
          | None => "Invalid shipping address"
          end) 400,
     st).
Proof.
  intros Hne Hempty.
  unfold POST_orders, checkout_validate.
  apply String.eqb_neq in Hne. rewrite Hne.
  destruct (find_address st addressId (SessionUser.id user)) as [a|];
    [|reflexivity].
  destruct (find_cart st (SessionUser.id user)) as [cart|]; [|reflexivity].
  now rewrite (Hempty cart eq_refl).
Qed.

Lemma address_check_precedes_cart_check_witness :
  POST_orders (Some Sample.carol) (Value "a3"%string) "o2"
    (Sample.cuid_item "x") Sample.store
  = (NextResponse.json (ErrorBody "Your cart is empty") 400, Sample.store)
  /\ POST_orders (Some Sample.carol) (Value "a1"%string) "o2"
       (Sample.cuid_item "x") Sample.store
     = (NextResponse.json (ErrorBody "Invalid shipping address") 400,
        Sample.store).
Proof.
  split.
  - apply (address_check_precedes_cart_check Sample.carol "a3" "o2"
             (Sample.cuid_item "x") Sample.store).
    + discriminate.
    + intros cart H. injection H as <-. reflexivity.
  - apply (address_check_precedes_cart_check Sample.carol "a1" "o2"
             (Sample.cuid_item "x") Sample.store).
    + discriminate.
    + intros cart H. injection H as <-. reflexivity.
Defined.

(** ** Product updates and the order price snapshot *)

Section ProductUpdateFacts.
Variable parseFloat : string -> float.
Variable parseInt : string -> option Z.



End ProductUpdateFacts.


(** ** Order status *)

Lemma findById_map_update {Row : Set} (row_id : Row -> string) (i : string)
      (f : Row -> Row) (rows : list Row) :
  (forall x, row_id (f x) = row_id x) ->
  findById row_id i
    (map (fun x => if String.eqb (row_id x) i then f x else x) rows)
  = option_map f (findById row_id i rows).
Proof.
  intros Hf. unfold findById.
  induction rows as [|x rows IH]; simpl.
  - reflexivity.
  - destruct (String.eqb (row_id x) i) eqn:E.
    + now rewrite Hf, E.
    + rewrite E. exact IH.
Qed.

(** The strings the handler lets through are the names of the enum. *)
Lemma OrderStatus_of_string_valid (s : string) (t : OrderStatus) :
  OrderStatus_of_string s = Some t ->
  String.eqb s EmptyString = false /\ includes validStatuses s = true.
Proof.
  unfold OrderStatus_of_string.
  repeat match goal with
         | |- context [String.eqb s ?c] =>
             let E := fresh "E" in
             destruct (String.eqb s c) eqn:E;
             [apply String.eqb_eq in E; subst s; intros _; split; reflexivity|]
         end.
  discriminate.
Qed.

Lemma includes_validStatuses (s : string) :
  includes validStatuses s = true -> OrderStatus_of_string s <> None.
Proof.
  unfold includes, validStatuses, OrderStatus_of_string. simpl.
  repeat match goal with
         | |- context [String.eqb s ?c] =>
             destruct (String.eqb s c); [discriminate|]
         end.
  simpl. discriminate.
Qed.

(** C5 as stated fails: a manager sets a DELIVERED order to PENDING. *)
Lemma delivered_order_set_to_pending :
  option_map Order.status (findById Order.id "o1" (orders Sample.store))
  = Some DELIVERED
  /\ NextResponse.status
       (fst (PATCH_order (Some Sample.mallory) "o1" (Value "PENDING"%string)
               Sample.store)) = 200
  /\ option_map Order.status
       (findById Order.id "o1"
          (orders (snd (PATCH_order (Some Sample.mallory) "o1"
                          (Value "PENDING"%string) Sample.store))))
     = Some PENDING.
Proof.
  repeat split.
Qed.

(** C5, amended.  No status is terminal.  For every existing order,
    whatever its status, a status change by a MANAGER or ADMIN to a
    recognised status is answered 200 with the updated order, and the
    order has the requested status afterwards; nothing else in the store
    changes. *)
Theorem PATCH_order_sets_any_status
        (user : SessionUser.t) (params_id s : string) (target : OrderStatus)
        (o : Order.t) (st : Store) :
  is_staff (SessionUser.role user) = true ->
  params_id <> EmptyString ->
  OrderStatus_of_string s = Some target ->
  findById Order.id params_id (orders st) = Some o ->
  let r := PATCH_order (Some user) params_id (Value s) st in
  fst r = NextResponse.json_ok (OrderBody (Order.with_status o target))
  /\ findById Order.id params_id (orders (snd r))
     = Some (Order.with_status o target)
  /\ snd r
     = with_orders st
         (map (fun x => if String.eqb (Order.id x) params_id
                        then Order.with_status x target else x)
              (orders st)).
Proof.
  intros Hrole Hid Hs Ho.
  destruct (OrderStatus_of_string_valid s target Hs) as [Hs1 Hs2].
  apply String.eqb_neq in Hid.
  unfold PATCH_order.
  rewrite Hrole, Hid, Hs1, Hs2, Ho, Hs. simpl.
  rewrite (updateById_found Order.id params_id _ (orders st) o Ho). simpl.
  split; [reflexivity|]. split; [|reflexivity].
  rewrite findById_map_update by reflexivity.
  now rewrite Ho.
Qed.

Lemma PATCH_order_sets_any_status_witness :
  Order.status (Order.mk "o1" "alice" DELIVERED 10%float "a1") = DELIVERED
  /\ findById Order.id "o1"
       (orders (snd (PATCH_order (Some Sample.mallory) "o1"
                       (Value "CANCELLED"%string) Sample.store)))
     = Some (Order.mk "o1" "alice" CANCELLED 10%float "a1").
Proof.
  split; [reflexivity|].
  apply (PATCH_order_sets_any_status Sample.mallory "o1" "CANCELLED"
           CANCELLED (Order.mk "o1" "alice" DELIVERED 10%float "a1")
           Sample.store); [reflexivity | discriminate | reflexivity ..].
Defined.

(** A status change that is not answered 200 changed nothing. *)
Lemma PATCH_order_rejected (session : Session) (params_id : string)
      (status : JsField string) (st : Store) :
  NextResponse.status (fst (PATCH_order session params_id status st)) <> 200 ->
  snd (PATCH_order session params_id status st) = st.
Proof.
  unfold PATCH_order.
  destruct session as [user|]; [|reflexivity].
  destruct (negb (is_staff (SessionUser.role user))); [reflexivity|].
  destruct (String.eqb params_id EmptyString); [reflexivity|].
  destruct status as [| |s]; try reflexivity.
  destruct (_ || _); [reflexivity|].
  destruct (findById Order.id params_id (orders st)); [|reflexivity].
  destruct (OrderStatus_of_string s); [|reflexivity].
  destruct (updateById Order.id params_id _ (orders st)); [|reflexivity].
  simpl. congruence.
Qed.

(** ** Reviews *)

Lemma hasPurchased_canReview (st : Store) (userId productId : string) :
  hasPurchased st userId productId <> None <-> canReview st userId productId.
Proof.
  unfold hasPurchased, canReview, delivered_to. split.
  - destruct (find _ (orderItems st)) as [i|] eqn:F; [|congruence].
    intros _. apply find_some in F as [Hin Hi].
    apply andb_true_iff in Hi as [Hp Hd].
    destruct (findById Order.id (OrderItem.orderId i) (orders st)) as [o|]
      eqn:Ho; [|discriminate].
    apply andb_true_iff in Hd as [Hu Hs].
    exists i, o. repeat split; auto.
    + now apply String.eqb_eq.
    + now apply String.eqb_eq.
    + destruct (Order.status o); congruence.
  - intros (i & o & Hin & Hp & Ho & Hu & Hs) F.
    apply (find_none _ _ F) in Hin.
    rewrite Ho, Hp, Hu, Hs, !String.eqb_refl in Hin. discriminate.
Qed.

Lemma rating_in_range (n : Z) :
  1 <= n <= 5 ->
  not_number (Value n) || js_lt (Value n) 1 || js_gt (Value n) 5 = false.
Proof.
  intros H. simpl.
  destruct (Z.eqb_spec n 0); [lia|].
  destruct (Z.ltb_spec n 1); [lia|].
  destruct (Z.ltb_spec 5 n); [lia|]. reflexivity.
Qed.

Lemma rating_not_in_range (rating : JsField Z) :
  rating_out_of_range rating ->
  not_number rating || js_lt rating 1 || js_gt rating 5 = true.
Proof.
  destruct rating as [| |n]; simpl; try reflexivity.
  intros H.
  destruct (Z.eqb_spec n 0); [reflexivity|].
  destruct (Z.ltb_spec n 1); [reflexivity|].
  destruct (Z.ltb_spec 5 n); [reflexivity | lia].
Qed.

Lemma not_string_value (s : string) :
  s <> EmptyString -> not_string (Value s) = false.
Proof. intros H. simpl. now apply String.eqb_neq. Qed.

(** C6. Review gating.  For a CUSTOMER caller and an existing product:
    - with a rating in 1..5 the submission succeeds exactly when
      [canReview] holds for the caller and the product;
    - when it succeeds the review is in the store: the caller's review
      of the product is rewritten with the rating and answered 200 when
      there is one, and otherwise a new review of the caller for the
      product with the rating is appended and answered 201; nothing else
      in the store changes;
    - with a rating in 1..5 and [canReview] false the answer is 403 and
      the store, so the reviews, is unchanged;
    - with a rating outside 1..5 (or none) the answer is 400 "Rating must
      be between 1 and 5" and the store is unchanged. *)
Theorem review_gating
        (user : SessionUser.t) (productId : string) (p : Product.t)
        (comment : JsField string) (cuid : string) (st : Store) :
  SessionUser.role user = CUSTOMER ->
  productId <> EmptyString ->
  findById Product.id productId (products st) = Some p ->
  (forall n, 1 <= n <= 5 ->
     let r := POST_reviews (Some user) (Value productId) (Value n) comment
                cuid st in
     (succeeds (fst r) <-> canReview st (SessionUser.id user) productId)
     /\ (~ canReview st (SessionUser.id user) productId ->
         r = (NextResponse.json
                (ErrorBody
                   "You must purchase and receive this product before leaving a review")
                403, st))
     /\ (canReview st (SessionUser.id user) productId ->
         exists review,
           In review (reviews (snd r))
           /\ Review.userId review = SessionUser.id user
           /\ Review.productId review = productId
           /\ Review.rating review = n
           /\ snd r = with_reviews st (reviews (snd r))
           /\ match existingReview st (SessionUser.id user) productId with
              | Some existing =>
                  review = update_review n comment existing
                  /\ fst r = NextResponse.json_ok (ReviewBody review)
                  /\ reviews (snd r)
                     = map (fun x =>
                              if String.eqb (Review.id x) (Review.id existing)
                              then update_review n comment x else x)
                           (reviews st)
              | None =>
                  review = new_review cuid (SessionUser.id user) productId n
                             comment
                  /\ fst r = NextResponse.json (ReviewBody review) 201
                  /\ reviews (snd r) = reviews st ++ [review]
              end))
  /\ (forall rating, rating_out_of_range rating ->
        POST_reviews (Some user) (Value productId) rating comment cuid st
        = (NextResponse.json (ErrorBody "Rating must be between 1 and 5") 400,
           st)).
Proof.
  intros Hrole Hpid Hp. split.
  - intros n Hn r. subst r. unfold POST_reviews.
    rewrite Hrole, (not_string_value _ Hpid), (rating_in_range n Hn), Hp.
    pose proof (hasPurchased_canReview st (SessionUser.id user) productId)
      as Hcan.
    destruct (hasPurchased st (SessionUser.id user) productId) as [i|].
    + assert (Hyes : canReview st (SessionUser.id user) productId)
        by (apply Hcan; discriminate).
      destruct (existingReview st (SessionUser.id user) productId) as [e|]
        eqn:He.
      * pose proof He as He'. unfold existingReview in He'.
        apply find_some in He' as [Hin Hkey].
        apply andb_true_iff in Hkey as [Hu Hq].
        apply String.eqb_eq in Hu, Hq.
        unfold updateById.
        assert (existsb (fun x => String.eqb (Review.id x) (Review.id e))
                        (reviews st) = true) as ->.
        { apply existsb_exists. exists e. split; [exact Hin|].
          apply String.eqb_refl. }
        cbn [fst snd].
        split; [split; [intros _; exact Hyes | intros _; left; reflexivity]|].
        split; [tauto|]. intros _.
        exists (update_review n comment e).
        cbn [reviews with_reviews].
        split.
        { apply in_map_iff. exists e. split; [|exact Hin].
          now rewrite String.eqb_refl. }
        split; [exact Hu|]. split; [exact Hq|].
        split; [reflexivity|]. split; [reflexivity|].
        split; [reflexivity|]. split; reflexivity.
      * cbn [fst snd].
        split; [split; [intros _; exact Hyes | intros _; right; reflexivity]|].
        split; [tauto|]. intros _.
        exists (new_review cuid (SessionUser.id user) productId n comment).
        cbn [reviews with_reviews]. unfold create.
        split; [apply in_or_app; right; left; reflexivity|].
        split; [reflexivity|]. split; [reflexivity|].
        split; [reflexivity|]. split; [reflexivity|].
        split; [reflexivity|]. split; reflexivity.
    + assert (Hno : ~ canReview st (SessionUser.id user) productId)
        by (intros H; apply Hcan in H; congruence).
      split; [split; [|tauto]|split; [reflexivity | tauto]].
      intros [H|H]; simpl in H; discriminate.
  - intros rating Hr. unfold POST_reviews.
    now rewrite Hrole, (not_string_value _ Hpid), (rating_not_in_range _ Hr).
Qed.

Lemma review_gating_witness :
  (succeeds (fst (POST_reviews (Some Sample.alice) (Value "p1"%string)
                    (Value 5) Null "r2" Sample.store))
   /\ canReview Sample.store "alice" "p1"
   /\ reviews (snd (POST_reviews (Some Sample.alice) (Value "p1"%string)
                      (Value 5) Null "r2" Sample.store))
      = [Review.mk "r1" "alice" "p1" 5 None])
  /\ POST_reviews (Some Sample.bob) (Value "p1"%string) (Value 5) Null "r2"
       Sample.store
     = (NextResponse.json
          (ErrorBody
             "You must purchase and receive this product before leaving a review")
          403, Sample.store)
  /\ POST_reviews (Some Sample.alice) (Value "p1"%string) (Value 6) Null "r2"
       Sample.store
     = (NextResponse.json (ErrorBody "Rating must be between 1 and 5") 400,
        Sample.store).
Proof.
  split; [|split].
  - destruct (review_gating Sample.alice "p1" Sample.widget Null "r2"
                Sample.store) as [H _];
      [reflexivity | discriminate | reflexivity |].
    destruct (H 5) as (Hiff & _ & Hwritten); [lia|].
    assert (Hcan : canReview Sample.store "alice" "p1")
      by (apply Hiff; left; reflexivity).
    split; [left; reflexivity|]. split; [exact Hcan|].
    destruct (Hwritten Hcan) as (review & _ & _ & _ & _ & _ & Hcase).
    cbn in Hcase. destruct Hcase as (_ & _ & Hrs). exact Hrs.
  - destruct (review_gating Sample.bob "p1" Sample.widget Null "r2"
                Sample.store) as [H _];
      [reflexivity | discriminate | reflexivity |].
    destruct (H 5) as (Hiff & Hno & _); [lia|].
    apply Hno. intros Hcan. apply Hiff in Hcan.
    destruct Hcan as [E|E]; simpl in E; discriminate.
  - destruct (review_gating Sample.alice "p1" Sample.widget Null "r2"
                Sample.store) as [_ H];
      [reflexivity | discriminate | reflexivity |].
    apply (H (Value 6)). simpl. lia.
Defined.

Lemma review_count_map (f : Review.t -> Review.t) (rs : list Review.t)
      (productId : string) :
  (forall r, Review.productId (f r) = Review.productId r) ->
  length (filter (fun r => String.eqb (Review.productId r) productId)
                 (map f rs))
  = length (filter (fun r => String.eqb (Review.productId r) productId) rs).
Proof.
  intros Hf. induction rs as [|r rs IH]; simpl.
  - reflexivity.
  - rewrite Hf.
    destruct (String.eqb (Review.productId r) productId); simpl; now rewrite IH.
Qed.

(** C7. A second review is an update in place.  When the caller may
    review the product and a Review of the caller for the product is in
    the store, the submission is answered 200 with that Review carrying
    the new rating and comment; the row is rewritten where it stands, no
    row is added, and the number of reviews of every product is as
    before. *)
Theorem second_review_updates_in_place
        (user : SessionUser.t) (productId : string) (p : Product.t)
        (n : Z) (comment : JsField string) (cuid : string) (st : Store)
        (r0 : Review.t) :
  SessionUser.role user = CUSTOMER ->
  productId <> EmptyString ->
  1 <= n <= 5 ->
  findById Product.id productId (products st) = Some p ->
  canReview st (SessionUser.id user) productId ->
  In r0 (reviews st) ->
  Review.userId r0 = SessionUser.id user ->
  Review.productId r0 = productId ->
  exists existing st',
    POST_reviews (Some user) (Value productId) (Value n) comment cuid st
    = (NextResponse.json_ok (ReviewBody (update_review n comment existing)),
       st')
    /\ In existing (reviews st)
    /\ Review.userId existing = SessionUser.id user
    /\ Review.productId existing = productId
    /\ Review.rating (update_review n comment existing) = n
    /\ (forall c, comment = Value c ->
                  Review.comment (update_review n comment existing) = Some c)
    /\ reviews st'
       = map (fun x => if String.eqb (Review.id x) (Review.id existing)
                       then update_review n comment x else x)
             (reviews st)
    /\ length (reviews st') = length (reviews st)
    /\ (forall q, review_count st' q = review_count st q)
    /\ st' = with_reviews st (reviews st').
Proof.
  intros Hrole Hpid Hn Hp Hcan Hin Hu Hq.
  unfold POST_reviews.
  rewrite Hrole, (not_string_value _ Hpid), (rating_in_range n Hn), Hp.
  apply hasPurchased_canReview in Hcan.
  destruct (hasPurchased st (SessionUser.id user) productId) as [i|];
    [|congruence].
  destruct (existingReview st (SessionUser.id user) productId) as [e|] eqn:He.
  - unfold existingReview in He. apply find_some in He as [Hine He].
    apply andb_true_iff in He as [Heu Hep].
    apply String.eqb_eq in Heu, Hep.
    unfold updateById.
    assert (Hex : existsb (fun x => String.eqb (Review.id x) (Review.id e))
                    (reviews st) = true).
    { apply existsb_exists. exists e. split; [exact Hine|].
      apply String.eqb_refl. }
    rewrite Hex.
    exists e. eexists. split; [reflexivity|]. simpl.
    split; [exact Hine|]. split; [exact Heu|]. split; [exact Hep|].
    split; [reflexivity|].
    split; [intros c ->; reflexivity|].
    split; [reflexivity|].
    split; [apply length_map|].
    split; [|reflexivity].
    intros q. unfold review_count. simpl.
    apply review_count_map.
    intros r. destruct (String.eqb (Review.id r) (Review.id e)); reflexivity.
  - exfalso. unfold existingReview in He.
    apply (find_none _ _ He) in Hin.
    rewrite Hu, Hq, !String.eqb_refl in Hin. discriminate.
Qed.

Lemma second_review_updates_in_place_witness :
  exists existing st',
    POST_reviews (Some Sample.alice) (Value "p1"%string) (Value 2)
      (Value "meh"%string) "r2" Sample.store
    = (NextResponse.json_ok
         (ReviewBody (update_review 2 (Value "meh"%string) existing)), st')
    /\ reviews st' = [Review.mk "r1" "alice" "p1" 2 (Some "meh"%string)]
    /\ review_count st' "p1" = review_count Sample.store "p1".
Proof.
  destruct (second_review_updates_in_place Sample.alice "p1" Sample.widget 2
              (Value "meh"%string) "r2" Sample.store
              (Review.mk "r1" "alice" "p1" 4 (Some "fine"%string)))
    as (e & st' & HP & Hin & _ & _ & _ & _ & Hrs & _ & Hcount & _).
  - reflexivity.
  - discriminate.
  - lia.
  - reflexivity.
  - exists (OrderItem.mk "oi1" "o1" "p1" 1 10%float),
      (Order.mk "o1" "alice" DELIVERED 10%float "a1").
    repeat split. left. reflexivity.
  - left. reflexivity.
  - reflexivity.
  - reflexivity.
  - exists e, st'. split; [exact HP|]. split; [|apply Hcount].
    rewrite Hrs. destruct Hin as [<-|[]]. reflexivity.
Defined.

(** C10. A review of a product that does not exist.  For a CUSTOMER
    caller naming a product id and a rating in 1..5, when no Product has
    the id the answer is 404 "Product not found" and the store is
    unchanged, whatever the orders are: the purchase check is not
    reached. *)
Theorem review_of_missing_product
        (user : SessionUser.t) (productId : string) (n : Z)
        (comment : JsField string) (cuid : string) (st : Store) :
  SessionUser.role user = CUSTOMER ->
  productId <> EmptyString ->
  1 <= n <= 5 ->
  findById Product.id productId (products st) = None ->
  POST_reviews (Some user) (Value productId) (Value n) comment cuid st
  = (NextResponse.json (ErrorBody "Product not found") 404, st).
Proof.
  intros Hrole Hpid Hn Hp. unfold POST_reviews.
  now rewrite Hrole, (not_string_value _ Hpid), (rating_in_range n Hn), Hp.
Qed.

Lemma review_of_missing_product_witness :
  hasPurchased Sample.store "bob" "p9" = None
  /\ POST_reviews (Some Sample.bob) (Value "p9"%string) (Value 5) Null "r2"
       Sample.store
     = (NextResponse.json (ErrorBody "Product not found") 404, Sample.store).
Proof.
  split.
  - reflexivity.
  - apply (review_of_missing_product Sample.bob "p9" 5 Null "r2"
             Sample.store);
      [reflexivity | discriminate | lia | reflexivity].
Defined.

(** ** Cart lines *)

Lemma quantity_valid (q : Z) :
  1 <= q -> not_number (Value q) || js_lt (Value q) 1 = false.
Proof.
  intros H. simpl.
  destruct (Z.eqb_spec q 0); [lia|].
  destruct (Z.ltb_spec q 1); [lia | reflexivity].
Qed.

(** C9 as stated fails: Alice changes, and removes, a line of Bob's
    cart; both requests are answered 401, not 403. *)
Lemma foreign_cart_line_answered_401 :
  (exists c cart,
      findById CartItem.id "ci2" (cartItems Sample.store) = Some c
      /\ findById Cart.id (CartItem.cartId c) (carts Sample.store) = Some cart
      /\ Cart.userId cart <> SessionUser.id Sample.alice)
  /\ NextResponse.status
       (fst (PATCH_cartItem (Some Sample.alice) "ci2" (Value 1) Sample.store))
     = 401
  /\ NextResponse.status
       (fst (DELETE_cartItem (Some Sample.alice) "ci2" Sample.store))
     = 401
  /\ NextResponse.status
       (fst (PATCH_cartItem (Some Sample.alice) "ci2" (Value 1) Sample.store))
     <> 403
  /\ NextResponse.status
       (fst (DELETE_cartItem (Some Sample.alice) "ci2" Sample.store))
     <> 403.
Proof.
  split; [|repeat split; discriminate].
  exists (CartItem.mk "ci2" "c2" "p1" 1), (Cart.mk "c2" "bob").
  repeat split. discriminate.
Qed.

(** C9, amended.  For an authenticated caller and an existing cart line
    of a cart that is not the caller's:
    - an update with a quantity of at least 1 is answered 401
      "Unauthorized";
    - an update with any quantity leaves the store unchanged;
    - a removal is answered 401 "Unauthorized" and leaves the store
      unchanged. *)
Theorem foreign_cart_line_rejected
        (user : SessionUser.t) (params_id : string) (c : CartItem.t)
        (cart : Cart.t) (st : Store) :
  findById CartItem.id params_id (cartItems st) = Some c ->
  findById Cart.id (CartItem.cartId c) (carts st) = Some cart ->
  Cart.userId cart <> SessionUser.id user ->
  (forall q, 1 <= q ->
     PATCH_cartItem (Some user) params_id (Value q) st
     = (NextResponse.json (ErrorBody "Unauthorized") 401, st))
  /\ (forall quantity,
        snd (PATCH_cartItem (Some user) params_id quantity st) = st)
  /\ DELETE_cartItem (Some user) params_id st
     = (NextResponse.json (ErrorBody "Unauthorized") 401, st).
Proof.
  intros Hc Hcart Hown. apply String.eqb_neq in Hown.
  split; [|split].
  - intros q Hq. unfold PATCH_cartItem.
    now rewrite (quantity_valid q Hq), Hc, Hcart, Hown.
  - intros quantity. unfold PATCH_cartItem.
    destruct (_ || _); [reflexivity|].
    now rewrite Hc, Hcart, Hown.
  - unfold DELETE_cartItem. now rewrite Hc, Hcart, Hown.
Qed.

Lemma foreign_cart_line_rejected_witness :
  PATCH_cartItem (Some Sample.alice) "ci2" (Value 1) Sample.store
  = (NextResponse.json (ErrorBody "Unauthorized") 401, Sample.store)
  /\ DELETE_cartItem (Some Sample.alice) "ci2" Sample.store
     = (NextResponse.json (ErrorBody "Unauthorized") 401, Sample.store).
Proof.
  destruct (foreign_cart_line_rejected Sample.alice "ci2"
              (CartItem.mk "ci2" "c2" "p1" 1) (Cart.mk "c2" "bob")
              Sample.store) as (HP & _ & HD);
    [reflexivity | reflexivity | discriminate |].
  split; [apply HP; lia | exact HD].
Defined.

(** The owner's requests do go through: the ownership check is what
    stops the others. *)
Lemma own_cart_line_updated :
  NextResponse.status
    (fst (PATCH_cartItem (Some Sample.bob) "ci2" (Value 1) Sample.store))
  = 200
  /\ cartItems (snd (DELETE_cartItem (Some Sample.bob) "ci2" Sample.store))
     = [CartItem.mk "ci1" "c1" "p1" 1].
Proof. split; reflexivity. Qed.

(** ** Stock under checkouts that do not overlap *)

Lemma POST_orders_cases (session : Session) (addressId : JsField string)
      (cuid_order : string) (cuid_item : nat -> string) (st : Store) :
  let st' := snd (POST_orders session addressId cuid_order cuid_item st) in
  st' = st
  \/ exists user cart items,
       session = Some user
       /\ find_cart st (SessionUser.id user) = Some cart
       /\ include_products st (cart_items st cart) = Some items
       /\ first_insufficient items = None
       /\ products st'
          = map (fun p => Product.with_stock p
                            (Product.stock p
                             - ordered_quantity items (Product.id p)))
                (products st)
       /\ cartItems st'
          = deleteMany
              (fun i => String.eqb (CartItem.cartId i) (Cart.id cart))
              (cartItems st).
Proof.
  unfold POST_orders, checkout_validate.
  destruct session as [user|]; [|now left].
  destruct addressId as [| |aid]; try (now left).
  destruct (String.eqb aid EmptyString); [now left|].
  destruct (find_address st aid (SessionUser.id user)); [|now left].
  destruct (find_cart st (SessionUser.id user)) as [cart|] eqn:Hc;
    [|now left].
  destruct (cart_items st cart) as [|c cs] eqn:El; [now left|].
  destruct (include_products st (c :: cs)) as [items|] eqn:Hi; [|now left].
  destruct (first_insufficient items) eqn:Hf; [now left|].
  right. exists user, cart, items.
  rewrite El. repeat (split; [assumption || reflexivity|]).
  unfold checkout_commit, checkout_transaction. simpl.
  rewrite (update_stock_spec items (products st)
             (include_products_present st _ items Hi)).
  simpl. split; reflexivity.
Qed.

Lemma ordered_quantity_absent (items : list CartItemWithProduct.t)
      (productId : string) :
  ~ In productId (map CartItemWithProduct.productId items) ->
  ordered_quantity items productId = 0.
Proof.
  induction items as [|i items IH]; simpl; intros H.
  - reflexivity.
  - destruct (String.eqb_spec (CartItemWithProduct.productId i) productId).
    + tauto.
    + rewrite IH by tauto. reflexivity.
Qed.

Lemma ordered_quantity_bound (items : list CartItemWithProduct.t)
      (productId : string) (s : Z) :
  NoDup (map CartItemWithProduct.productId items) ->
  (forall i, In i items -> CartItemWithProduct.productId i = productId ->
             CartItemWithProduct.quantity i <= s) ->
  0 <= s ->
  ordered_quantity items productId <= s.
Proof.
  induction items as [|i items IH]; simpl; intros Hnd Hq Hs.
  - exact Hs.
  - inversion Hnd as [|? ? Hni Hnd']; subst.
    destruct (String.eqb_spec (CartItemWithProduct.productId i) productId)
      as [E|E].
    + rewrite ordered_quantity_absent by (rewrite <- E; exact Hni).
      specialize (Hq i (or_introl eq_refl) E). lia.
    + simpl. apply IH; auto.
Qed.

Lemma NoDup_map_In_eq {A B : Type} (f : A -> B) (l : list A) (x y : A) :
  NoDup (map f l) -> In x l -> In y l -> f x = f y -> x = y.
Proof.
  induction l as [|a l IH]; simpl; intros Hnd Hx Hy E; [tauto|].
  inversion Hnd as [|? ? Hni Hnd']; subst.
  destruct Hx as [<-|Hx], Hy as [<-|Hy]; auto.
  - exfalso. apply Hni. rewrite E. now apply in_map.
  - exfalso. apply Hni. rewrite <- E. now apply in_map.
Qed.

Lemma NoDup_map_filter {A B : Type} (f : A -> B) (P : A -> bool)
      (l : list A) :
  NoDup (map f l) -> NoDup (map f (filter P l)).
Proof.
  induction l as [|a l IH]; simpl; intros Hnd; [constructor|].
  inversion Hnd as [|? ? Hni Hnd']; subst.
  destruct (P a); simpl; auto.
  constructor; auto.
  intros Hin. apply Hni. apply in_map_iff in Hin as (x & Hx & Hin).
  apply filter_In in Hin as [Hin _]. rewrite <- Hx. now apply in_map.
Qed.

Lemma filter_swap {A : Type} (P Q : A -> bool) (l : list A) :
  filter P (filter Q l) = filter Q (filter P l).
Proof.
  induction l as [|a l IH]; simpl; [reflexivity|].
  destruct (P a) eqn:EP, (Q a) eqn:EQ; simpl; rewrite ?EP, ?EQ, IH;
    reflexivity.
Qed.

Lemma include_products_map (st : Store) (cs : list CartItem.t)
      (items : list CartItemWithProduct.t) :
  include_products st cs = Some items ->
  map CartItemWithProduct.productId items = map CartItem.productId cs
  /\ Forall (fun i => findById Product.id (CartItemWithProduct.productId i)
                        (products st)
                      = Some (CartItemWithProduct.product i)) items.
Proof.
  intros H. apply include_products_Forall2 in H.
  induction H as [|c i cs items Hi _ [IH1 IH2]]; simpl.
  - split; constructor.
  - apply include_product_fields in Hi as (E & _ & _ & Hp).
    split.
    + now rewrite E, IH1.
    + constructor; [now rewrite E | exact IH2].
Qed.

(** One checkout, not overlapped by another, on a store where no cart
    has two lines of one product: stocks stay non-negative. *)
Lemma checkout_alone_keeps_stock_nonneg
      (session : Session) (addressId : JsField string) (cuid_order : string)
      (cuid_item : nat -> string) (st : Store) :
  one_line_per_product st ->
  stock_nonneg st ->
  let st' := snd (POST_orders session addressId cuid_order cuid_item st) in
  one_line_per_product st' /\ stock_nonneg st'.
Proof.
  intros [Hkeys Hlines] Hnn st'.
  destruct (POST_orders_cases session addressId cuid_order cuid_item st)
    as [E | (user & cart & items & _ & Hc & Hi & Hf & Hps & Hcis)];
    fold st' in E || fold st' in Hps, Hcis.
  - rewrite E. split; [split|]; assumption.
  - destruct (include_products_map st _ items Hi) as [Hids Hprod].
    split; [split|].
    + rewrite Hps, map_map. simpl. exact Hkeys.
    + intros cart'. unfold cart_items. rewrite Hcis. unfold deleteMany.
      rewrite filter_swap. apply NoDup_map_filter. apply Hlines.
    + unfold stock_nonneg. rewrite Hps. apply Forall_map.
      unfold stock_nonneg in Hnn. rewrite Forall_forall in *.
      intros p Hp. simpl.
      assert (ordered_quantity items (Product.id p) <= Product.stock p);
        [|lia].
      apply ordered_quantity_bound; [| |now apply Hnn].
      * rewrite Hids. apply Hlines.
      * intros i Hin Hid.
        specialize (Hprod i Hin).
        unfold findById in Hprod. apply find_some in Hprod as [Hpin Hpid].
        apply String.eqb_eq in Hpid.
        assert (CartItemWithProduct.product i = p) as Hsame.
        { apply (NoDup_map_In_eq Product.id (products st)); auto.
          congruence. }
        unfold first_insufficient in Hf.
        apply (find_none _ _ Hf) in Hin. unfold insufficient in Hin.
        rewrite Hsame in Hin.
        destruct (Z.ltb_spec (Product.stock p)
                    (CartItemWithProduct.quantity i)); [discriminate | lia].
Qed.

(** X2. Any number of checkouts run one after the other, on a store
    where product ids are keys and no cart has two lines of one product,
    leaves every stock non-negative. *)
Lemma checkouts_in_turn_keep_stock_nonneg (reqs : list InFlight.Request) :
  forall st,
    one_line_per_product st ->
    stock_nonneg st ->
    stock_nonneg (run_checkouts reqs st).
Proof.
  induction reqs as [|r reqs IH]; intros st Hwf Hnn; simpl.
  - exact Hnn.
  - destruct (checkout_alone_keeps_stock_nonneg (InFlight.session r)
                (InFlight.addressId r) (InFlight.cuid_order r)
                (InFlight.cuid_item r) st Hwf Hnn) as [Hwf' Hnn'].
    apply IH; assumption.
Qed.

(** * Further properties *)

(** ** Checkout, continued *)


Lemma sample_one_line_per_product : one_line_per_product Sample.store.
Proof.
  split.
  - repeat constructor. simpl. tauto.
  - intros cart. unfold cart_items, Sample.store.
    cbn [cartItems filter CartItem.cartId].
    destruct (String.eqb_spec "c1" (Cart.id cart)) as [E1|E1],
             (String.eqb_spec "c2" (Cart.id cart)) as [E2|E2];
      cbn [map CartItem.productId]; try congruence;
      repeat constructor; simpl; tauto.
Qed.

Lemma sample_stock_nonneg : stock_nonneg Sample.store.
Proof. repeat constructor. simpl. lia. Qed.

(** X1's witness: an unauthenticated checkout. *)
Lemma POST_orders_not_created_witness :
  snd (POST_orders None (Value "a1"%string) "o2" (Sample.cuid_item "x")
         Sample.store) = Sample.store.
Proof.
  apply (POST_orders_not_created None (Value "a1"%string) "o2"
           (Sample.cuid_item "x") Sample.store).
  simpl. discriminate.
Defined.

(** X2's witness: Alice, then Bob, check out the last unit. *)
Lemma checkouts_in_turn_keep_stock_nonneg_witness :
  stock_nonneg
    (run_checkouts
       [Sample.checkout_of Sample.alice "a1" "o2" "x";
        Sample.checkout_of Sample.bob "a2" "o3" "y"] Sample.store)
  /\ Sample.stocks
       (run_checkouts
          [Sample.checkout_of Sample.alice "a1" "o2" "x";
           Sample.checkout_of Sample.bob "a2" "o3" "y"] Sample.store)
     = [0].
Proof.
  split.
  - apply (checkouts_in_turn_keep_stock_nonneg
             [Sample.checkout_of Sample.alice "a1" "o2" "x";
              Sample.checkout_of Sample.bob "a2" "o3" "y"] Sample.store).
    + exact sample_one_line_per_product.
    + exact sample_stock_nonneg.
  - reflexivity.
Defined.







(** ** Order status, continued *)

(** What a status change does to the store, case by case. *)
Lemma PATCH_order_cases (session : Session) (params_id : string)
      (status : JsField string) (st : Store) :
  snd (PATCH_order session params_id status st) = st
  \/ exists s',
       snd (PATCH_order session params_id status st)
       = with_orders st
           (map (fun x => if String.eqb (Order.id x) params_id
                          then Order.with_status x s' else x)
                (orders st))
       /\ exists s, status = Value s /\ OrderStatus_of_string s = Some s'.
Proof.
  unfold PATCH_order.
  destruct session as [user|]; [|now left].
  destruct (negb (is_staff (SessionUser.role user))); [now left|].
  destruct (String.eqb params_id EmptyString); [now left|].
  destruct status as [| |s]; try (now left).
  destruct (_ || _); [now left|].
  destruct (findById Order.id params_id (orders st)) as [o|] eqn:Ho;
    [|now left].
  destruct (OrderStatus_of_string s) as [s'|] eqn:Hs; [|now left].
  rewrite (updateById_found Order.id params_id _ (orders st) o Ho).
  right. exists s'. split; [reflexivity|]. exists s. auto.
Qed.

(** X5. A status change writes the status of the orders with the given
    id and nothing else: products and their stock (a change to CANCELLED
    puts nothing back), order items, reviews, carts and addresses are as
    before, every order keeps its id, owner, total and address, and the
    orders with another id are untouched. *)
Theorem PATCH_order_writes_status_only
        (session : Session) (params_id : string) (status : JsField string)
        (st : Store) :
  let st' := snd (PATCH_order session params_id status st) in
  products st' = products st
  /\ total_stock st' = total_stock st
  /\ orderItems st' = orderItems st
  /\ reviews st' = reviews st
  /\ carts st' = carts st
  /\ cartItems st' = cartItems st
  /\ addresses st' = addresses st
  /\ Forall2 (fun o o' =>
                Order.id o' = Order.id o
                /\ Order.userId o' = Order.userId o
                /\ Order.total o' = Order.total o
                /\ Order.addressId o' = Order.addressId o
                /\ (Order.id o <> params_id -> o' = o))
             (orders st) (orders st').
Proof.
  intros st'.
  destruct (PATCH_order_cases session params_id status st)
    as [E | (s' & E & _)]; fold st' in E; rewrite E.
  - repeat (split; [reflexivity|]). clear E.
    induction (orders st) as [|o os IH]; constructor; auto 10.
  - unfold total_stock. simpl. repeat (split; [reflexivity|]). clear E.
    induction (orders st) as [|o os IH]; simpl; constructor; auto.
    destruct (String.eqb_spec (Order.id o) params_id); simpl; auto 10.
    repeat (split; [reflexivity|]). tauto.
Qed.

Lemma OrderStatus_of_string_none (s : string) :
  OrderStatus_of_string s = None ->
  String.eqb s EmptyString || negb (includes validStatuses s) = true.
Proof.
  unfold OrderStatus_of_string, includes, validStatuses. simpl.
  repeat match goal with
         | |- context [String.eqb s ?c] =>
             destruct (String.eqb s c); [discriminate|]
         end.
  intros _. apply orb_true_r.
Qed.

(** X6. Only the five status names pass.  For a manager or admin, a
    status that is missing, [null] or a string that is not one of
    PENDING, PROCESSING, SHIPPED, DELIVERED, CANCELLED (in this spelling)
    is answered 400 "Invalid status value" and nothing changes, whether
    or not the order exists. *)
Theorem PATCH_order_rejects_unknown_status
        (user : SessionUser.t) (params_id : string)
        (status : JsField string) (st : Store) :
  is_staff (SessionUser.role user) = true ->
  params_id <> EmptyString ->
  (forall s, status = Value s -> OrderStatus_of_string s = None) ->
  PATCH_order (Some user) params_id status st
  = (NextResponse.json (ErrorBody "Invalid status value") 400, st).
Proof.
  intros Hrole Hid Hs. apply String.eqb_neq in Hid.
  unfold PATCH_order. rewrite Hrole, Hid. cbn [negb].
  destruct status as [| |s]; try reflexivity.
  now rewrite (OrderStatus_of_string_none s (Hs s eq_refl)).
Qed.

Lemma PATCH_order_rejects_unknown_status_witness :
  PATCH_order (Some Sample.mallory) "o1" (Value "delivered"%string)
    Sample.store
  = (NextResponse.json (ErrorBody "Invalid status value") 400, Sample.store)
  /\ PATCH_order (Some Sample.mallory) "no-such-order" Undefined Sample.store
     = (NextResponse.json (ErrorBody "Invalid status value") 400,
        Sample.store).
Proof.
  split.
  - apply (PATCH_order_rejects_unknown_status Sample.mallory "o1"
             (Value "delivered"%string) Sample.store);
      [reflexivity | discriminate |].
    intros s [= <-]. reflexivity.
  - apply (PATCH_order_rejects_unknown_status Sample.mallory "no-such-order"
             Undefined Sample.store);
      [reflexivity | discriminate |].
    intros s H. discriminate.
Defined.

(** ** Reviews, continued *)

(** The answer and the store for a submission that passes every check. *)
Lemma POST_reviews_eligible
      (user : SessionUser.t) (productId : string) (p : Product.t) (n : Z)
      (comment : JsField string) (cuid : string) (st : Store)
      (i : OrderItem.t) :
  SessionUser.role user = CUSTOMER ->
  productId <> EmptyString ->
  1 <= n <= 5 ->
  findById Product.id productId (products st) = Some p ->
  hasPurchased st (SessionUser.id user) productId = Some i ->
  POST_reviews (Some user) (Value productId) (Value n) comment cuid st
  = match existingReview st (SessionUser.id user) productId with
    | Some e =>
        (NextResponse.json_ok (ReviewBody (update_review n comment e)),
         with_reviews st
           (map (fun x => if String.eqb (Review.id x) (Review.id e)
                          then update_review n comment x else x)
                (reviews st)))
    | None =>
        (NextResponse.json
           (ReviewBody
              (new_review cuid (SessionUser.id user) productId n comment))
           201,
         with_reviews st
           (reviews st
              ++ [new_review cuid (SessionUser.id user) productId n comment]))
    end.
Proof.
  intros Hrole Hpid Hn Hp Hi. unfold POST_reviews.
  rewrite Hrole, (not_string_value _ Hpid), (rating_in_range n Hn), Hp, Hi.
  destruct (existingReview st (SessionUser.id user) productId) as [e|] eqn:He;
    [|reflexivity].
  unfold existingReview in He. apply find_some in He as [Hin _].
  unfold updateById.
  assert (existsb (fun x => String.eqb (Review.id x) (Review.id e))
                  (reviews st) = true) as ->; [|reflexivity].
  apply existsb_exists. exists e. split; [exact Hin|].
  apply String.eqb_refl.
Qed.

(** What a submission does to the store, case by case. *)
Lemma POST_reviews_cases
      (session : Session) (productId : JsField string) (rating : JsField Z)
      (comment : JsField string) (cuid : string) (st : Store) :
  let r := POST_reviews session productId rating comment cuid st in
  (snd r = st /\ NextResponse.status (fst r) <> 200
   /\ NextResponse.status (fst r) <> 201)
  \/ (exists e n,
         In e (reviews st)
         /\ NextResponse.status (fst r) = 200
         /\ snd r
            = with_reviews st
                (map (fun x => if String.eqb (Review.id x) (Review.id e)
                               then update_review n comment x else x)
                     (reviews st)))
  \/ (exists user pid n,
         session = Some user
         /\ existingReview st (SessionUser.id user) pid = None
         /\ findById Product.id pid (products st) <> None
         /\ NextResponse.status (fst r) = 201
         /\ snd r
            = with_reviews st
                (reviews st
                   ++ [new_review cuid (SessionUser.id user) pid n comment])).
Proof.
  unfold POST_reviews.
  destruct session as [user|]; [|left; simpl; repeat split; discriminate].
  destruct (SessionUser.role user);
    try (left; simpl; repeat split; discriminate).
  destruct (not_string productId);
    [left; simpl; repeat split; discriminate|].
  destruct (_ || _); [left; simpl; repeat split; discriminate|].
  destruct productId as [| |pid], rating as [| |n];
    try (left; simpl; repeat split; discriminate).
  destruct (findById Product.id pid (products st)) as [p|] eqn:Hp;
    [|left; simpl; repeat split; discriminate].
  destruct (hasPurchased st (SessionUser.id user) pid);
    [|left; simpl; repeat split; discriminate].
  destruct (existingReview st (SessionUser.id user) pid) as [e|] eqn:He.
  - pose proof He as He'. unfold existingReview in He'.
    apply find_some in He' as [Hin _].
    unfold updateById.
    assert (existsb (fun x => String.eqb (Review.id x) (Review.id e))
                    (reviews st) = true) as ->.
    { apply existsb_exists. exists e. split; [exact Hin|].
      apply String.eqb_refl. }
    right. left. exists e, n. simpl. auto.
  - right. right. exists user, pid, n. simpl.
    repeat split; auto. congruence.
Qed.

(** The status change the claims leave out: what it writes. *)
Lemma PATCH_order_delivered
      (user : SessionUser.t) (params_id : string) (o : Order.t) (st : Store) :
  is_staff (SessionUser.role user) = true ->
  params_id <> EmptyString ->
  findById Order.id params_id (orders st) = Some o ->
  snd (PATCH_order (Some user) params_id (Value "DELIVERED"%string) st)
  = with_orders st
      (map (fun x => if String.eqb (Order.id x) params_id
                     then Order.with_status x DELIVERED else x)
           (orders st)).
Proof.
  intros Hrole Hid Ho. apply String.eqb_neq in Hid.
  unfold PATCH_order. rewrite Hrole, Hid. cbn [negb].
  change (String.eqb "DELIVERED" EmptyString
          || negb (includes validStatuses "DELIVERED")) with false.
  cbv iota. rewrite Ho.
  change (OrderStatus_of_string "DELIVERED") with (Some DELIVERED).
  cbv iota.
  now rewrite (updateById_found Order.id params_id _ (orders st) o Ho).
Qed.

(** X7. Delivery opens the review.  Once a manager or admin has set an
    order to DELIVERED, [canReview] holds for the owner of the order and
    the product of each of its items, and the owner's review of such a
    product (a CUSTOMER, the product in the catalogue, a rating in 1..5)
    is accepted. *)
Theorem delivery_opens_review
        (manager customer : SessionUser.t) (params_id : string) (o : Order.t)
        (i : OrderItem.t) (p : Product.t) (n : Z) (comment : JsField string)
        (cuid : string) (st : Store) :
  is_staff (SessionUser.role manager) = true ->
  params_id <> EmptyString ->
  findById Order.id params_id (orders st) = Some o ->
  In i (orderItems st) ->
  OrderItem.orderId i = params_id ->
  OrderItem.productId i <> EmptyString ->
  findById Product.id (OrderItem.productId i) (products st) = Some p ->
  SessionUser.role customer = CUSTOMER ->
  SessionUser.id customer = Order.userId o ->
  1 <= n <= 5 ->
  let st1 :=
    snd (PATCH_order (Some manager) params_id (Value "DELIVERED"%string) st)
  in
  canReview st1 (SessionUser.id customer) (OrderItem.productId i)
  /\ succeeds
       (fst (POST_reviews (Some customer) (Value (OrderItem.productId i))
               (Value n) comment cuid st1)).
Proof.
  intros Hrole Hid Ho Hin Hoid Hpid Hp Hcust Hown Hn st1.
  pose proof (PATCH_order_delivered manager params_id o st Hrole Hid Ho)
    as Hst. fold st1 in Hst.
  assert (Hcan : canReview st1 (SessionUser.id customer)
                   (OrderItem.productId i)).
  { exists i, (Order.with_status o DELIVERED). rewrite Hst. simpl.
    repeat split; auto.
    rewrite Hoid, findById_map_update by reflexivity.
    now rewrite Ho. }
  split; [exact Hcan|].
  apply hasPurchased_canReview in Hcan.
  destruct (hasPurchased st1 (SessionUser.id customer)
              (OrderItem.productId i)) as [i'|] eqn:Hi'; [|congruence].
  assert (Hp1 : findById Product.id (OrderItem.productId i) (products st1)
                = Some p) by (rewrite Hst; exact Hp).
  rewrite (POST_reviews_eligible customer (OrderItem.productId i) p n comment
             cuid st1 i' Hcust Hpid Hn Hp1 Hi').
  destruct (existingReview st1 (SessionUser.id customer)
              (OrderItem.productId i)); [left | right]; reflexivity.
Qed.

Lemma delivery_opens_review_witness :
  let st :=
    snd (POST_orders (Some Sample.bob) (Value "a2"%string) "o2"
           (Sample.cuid_item "x") Sample.store) in
  let st1 :=
    snd (PATCH_order (Some Sample.mallory) "o2" (Value "DELIVERED"%string) st)
  in
  hasPurchased st "bob" "p1" = None
  /\ canReview st1 "bob" "p1"
  /\ succeeds
       (fst (POST_reviews (Some Sample.bob) (Value "p1"%string) (Value 5)
               Null "r2" st1)).
Proof.
  intros st st1. split; [reflexivity|].
  apply (delivery_opens_review Sample.mallory Sample.bob "o2"
           (Order.mk "o2" "bob" PENDING 10%float "a2")
           (OrderItem.mk "x0" "o2" "p1" 1 10%float)
           (Product.with_stock Sample.widget 0) 5 Null "r2" st).
  - reflexivity.
  - discriminate.
  - reflexivity.
  - right. left. reflexivity.
  - reflexivity.
  - discriminate.
  - reflexivity.
  - reflexivity.
  - reflexivity.
  - lia.
Defined.

Lemma NoDup_snoc {A : Type} (l : list A) (x : A) :
  NoDup l -> ~ In x l -> NoDup (l ++ [x]).
Proof.
  induction l as [|a l IH]; simpl; intros Hnd Hni.
  - constructor; [tauto | constructor].
  - inversion Hnd as [|? ? Ha Hl]; subst. constructor.
    + rewrite in_app_iff. simpl. intros [H|[H|[]]]; [tauto | subst; tauto].
    + apply IH; tauto.
Qed.

Lemma existingReview_none (st : Store) (userId productId : string) :
  existingReview st userId productId = None ->
  ~ In (userId, productId) (map review_key (reviews st)).
Proof.
  unfold existingReview. intros Hnone Hin.
  apply in_map_iff in Hin as (r & Hk & Hin).
  apply (find_none _ _ Hnone) in Hin.
  unfold review_key in Hk. injection Hk as Hu Hp.
  rewrite Hu, Hp, !String.eqb_refl in Hin. discriminate.
Qed.

(** X8. A first review is a new row.  When the caller may review the
    product and has no review of it yet, the submission is answered 201
    with the new review, which is appended to the table with the caller,
    the product and the rating sent; the product has one review more and
    every other product as many as before. *)
Theorem first_review_is_created
        (user : SessionUser.t) (productId : string) (p : Product.t) (n : Z)
        (comment : JsField string) (cuid : string) (st : Store) :
  SessionUser.role user = CUSTOMER ->
  productId <> EmptyString ->
  1 <= n <= 5 ->
  findById Product.id productId (products st) = Some p ->
  canReview st (SessionUser.id user) productId ->
  (forall r, In r (reviews st) ->
             ~ (Review.userId r = SessionUser.id user
                /\ Review.productId r = productId)) ->
  let r := POST_reviews (Some user) (Value productId) (Value n) comment cuid st
  in
  exists review,
    fst r = NextResponse.json (ReviewBody review) 201
    /\ snd r = with_reviews st (reviews st ++ [review])
    /\ Review.id review = cuid
    /\ Review.userId review = SessionUser.id user
    /\ Review.productId review = productId
    /\ Review.rating review = n
    /\ review_count (snd r) productId = S (review_count st productId)
    /\ (forall q, q <> productId ->
                  review_count (snd r) q = review_count st q).
Proof.
  intros Hrole Hpid Hn Hp Hcan Hnone r.
  apply hasPurchased_canReview in Hcan.
  destruct (hasPurchased st (SessionUser.id user) productId) as [i|] eqn:Hi;
    [|congruence].
  subst r.
  rewrite (POST_reviews_eligible user productId p n comment cuid st i
             Hrole Hpid Hn Hp Hi).
  destruct (existingReview st (SessionUser.id user) productId) as [e|] eqn:He.
  - exfalso. unfold existingReview in He. apply find_some in He as [Hin He].
    apply andb_true_iff in He as [Hu Hq].
    apply String.eqb_eq in Hu, Hq. exact (Hnone e Hin (conj Hu Hq)).
  - exists (new_review cuid (SessionUser.id user) productId n comment).
    simpl. repeat (split; [reflexivity|]).
    unfold review_count. simpl. split.
    + rewrite filter_app, length_app. simpl.
      rewrite String.eqb_refl. simpl. lia.
    + intros q Hq. rewrite filter_app, length_app. simpl.
      apply String.eqb_neq in Hq. rewrite String.eqb_sym, Hq. simpl. lia.
Qed.

Lemma first_review_is_created_witness :
  let st :=
    snd (PATCH_order (Some Sample.mallory) "o2" (Value "DELIVERED"%string)
           (snd (POST_orders (Some Sample.bob) (Value "a2"%string) "o2"
                   (Sample.cuid_item "x") Sample.store))) in
  exists review,
    fst (POST_reviews (Some Sample.bob) (Value "p1"%string) (Value 3)
           (Value "ok"%string) "r2" st)
    = NextResponse.json (ReviewBody review) 201
    /\ Review.rating review = 3
    /\ review_count
         (snd (POST_reviews (Some Sample.bob) (Value "p1"%string) (Value 3)
                 (Value "ok"%string) "r2" st)) "p1" = 2%nat.
Proof.
  intros st.
  destruct (first_review_is_created Sample.bob "p1"
              (Product.with_stock Sample.widget 0) 3 (Value "ok"%string)
              "r2" st)
    as (review & Hr & _ & _ & _ & _ & Hn & Hc & _).
  - reflexivity.
  - discriminate.
  - lia.
  - reflexivity.
  - exists (OrderItem.mk "x0" "o2" "p1" 1 10%float),
      (Order.mk "o2" "bob" DELIVERED 10%float "a2").
    repeat split. right. left. reflexivity.
  - intros r [<-|[]] [Hu _]. discriminate.
  - exists review. split; [exact Hr|]. split; [exact Hn|]. exact Hc.
Defined.

(** X9. At most one review per user and product, for submissions that
    do not overlap.  When no two reviews in the store have the same user
    and product, none do after a submission that runs from its first
    read to its write with no other request in between, whatever is
    submitted.  (The handler looks for the caller's review and creates
    one in two separate calls, and the schema has no unique key on user
    and product, so this says nothing of two first submissions of one
    user that overlap.) *)
Theorem POST_reviews_keeps_one_review_per_pair
        (session : Session) (productId : JsField string)
        (rating : JsField Z) (comment : JsField string) (cuid : string)
        (st : Store) :
  one_review_per_pair st ->
  one_review_per_pair
    (snd (POST_reviews session productId rating comment cuid st)).
Proof.
  intros Hone. unfold one_review_per_pair in *.
  destruct (POST_reviews_cases session productId rating comment cuid st)
    as [(E & _) | [(e & n & _ & _ & E) | (user & pid & n & _ & He & _ & _ & E)]];
    rewrite E.
  - exact Hone.
  - simpl. rewrite map_map.
    erewrite map_ext; [exact Hone|].
    intros r. destruct (String.eqb (Review.id r) (Review.id e)); reflexivity.
  - simpl. rewrite map_app. simpl.
    apply NoDup_snoc; [exact Hone|].
    apply existingReview_none in He. exact He.
Qed.

Lemma POST_reviews_keeps_one_review_per_pair_witness :
  one_review_per_pair
    (snd (POST_reviews (Some Sample.alice) (Value "p1"%string) (Value 2)
            (Value "meh"%string) "r2" Sample.store)).
Proof.
  apply (POST_reviews_keeps_one_review_per_pair (Some Sample.alice)
           (Value "p1"%string) (Value 2) (Value "meh"%string) "r2"
           Sample.store).
  repeat constructor. simpl. tauto.
Defined.

(** X10. A review submission writes the reviews table only, and only
    when it is answered 200 or 201: the products, orders, order items,
    carts and addresses are never touched, and any other answer leaves
    the whole store as it was. *)
Theorem POST_reviews_writes_reviews_only
        (session : Session) (productId : JsField string)
        (rating : JsField Z) (comment : JsField string) (cuid : string)
        (st : Store) :
  let r := POST_reviews session productId rating comment cuid st in
  snd r = with_reviews st (reviews (snd r))
  /\ (~ succeeds (fst r) -> snd r = st)
  /\ (succeeds (fst r) ->
      exists user, session = Some user
                   /\ SessionUser.role user = CUSTOMER).
Proof.
  intros r. subst r.
  destruct (POST_reviews_cases session productId rating comment cuid st)
    as [(E & H0 & H1) | [(e & n & _ & Hs & E) | (u & pid & n & _ & _ & _ & Hs & E)]].
  - rewrite E. split; [now destruct st|]. split; [reflexivity|].
    intros [H|H]; congruence.
  - split; [rewrite E; reflexivity|]. split.
    + intros H. exfalso. apply H. left. exact Hs.
    + intros _. revert Hs. unfold POST_reviews.
      destruct session as [user|]; [|discriminate].
      destruct (SessionUser.role user) eqn:Hr; try discriminate.
      intros _. exists user. auto.
  - split; [rewrite E; reflexivity|]. split.
    + intros H. exfalso. apply H. right. exact Hs.
    + intros _. revert Hs. unfold POST_reviews.
      destruct session as [user|]; [|discriminate].
      destruct (SessionUser.role user) eqn:Hr; try discriminate.
      intros _. exists user. auto.
Qed.

(** ** Cart lines, continued *)

Lemma findById_filter_other {Row : Set} (row_id : Row -> string)
      (i : string) (rows : list Row) :
  findById row_id i
    (filter (fun r => negb (String.eqb (row_id r) i)) rows) = None.
Proof.
  unfold findById. induction rows as [|r rows IH]; simpl; [reflexivity|].
  destruct (String.eqb (row_id r) i) eqn:E; simpl; [exact IH|].
  now rewrite E.
Qed.

(** X11. The owner's quantity update.  For the owner of an existing
    cart line whose product is in the catalogue:
    - a quantity from 1 to the current stock of the product is answered
      200 and becomes the quantity of the line, nothing else changing in
      the line;
    - a quantity above the stock is answered 400 "Not enough stock
      available" and changes nothing;
    - a quantity below 1, or none, is answered 400 "Valid quantity is
      required" and changes nothing. *)
Theorem own_cart_line_update
        (user : SessionUser.t) (params_id : string) (c : CartItem.t)
        (cart : Cart.t) (p : Product.t) (st : Store) :
  findById CartItem.id params_id (cartItems st) = Some c ->
  findById Cart.id (CartItem.cartId c) (carts st) = Some cart ->
  Cart.userId cart = SessionUser.id user ->
  findById Product.id (CartItem.productId c) (products st) = Some p ->
  (forall q, 1 <= q <= Product.stock p ->
     let r := PATCH_cartItem (Some user) params_id (Value q) st in
     fst r = NextResponse.json_ok
               (CartItemBody (CartItem.with_quantity c q) (Some p))
     /\ snd r
        = with_cartItems st
            (map (fun x => if String.eqb (CartItem.id x) params_id
                           then CartItem.with_quantity x q else x)
                 (cartItems st))
     /\ findById CartItem.id params_id (cartItems (snd r))
        = Some (CartItem.with_quantity c q))
  /\ (forall q, 1 <= q -> Product.stock p < q ->
        PATCH_cartItem (Some user) params_id (Value q) st
        = (NextResponse.json (ErrorBody "Not enough stock available") 400,
           st))
  /\ (forall quantity, (forall q, quantity = Value q -> q < 1) ->
        PATCH_cartItem (Some user) params_id quantity st
        = (NextResponse.json (ErrorBody "Valid quantity is required") 400,
           st)).
Proof.
  intros Hc Hcart Hown Hp.
  assert (Ho : negb (String.eqb (Cart.userId cart) (SessionUser.id user))
               = false) by (rewrite Hown, String.eqb_refl; reflexivity).
  split; [|split].
  - intros q [Hq1 Hq2] r. subst r. unfold PATCH_cartItem.
    rewrite (quantity_valid q Hq1), Hc, Hcart, Ho, Hp.
    destruct (Z.ltb_spec (Product.stock p) q); [lia|].
    rewrite (updateById_found CartItem.id params_id _ (cartItems st) c Hc).
    simpl. split; [reflexivity|]. split; [reflexivity|].
    rewrite findById_map_update by reflexivity. now rewrite Hc.
  - intros q Hq1 Hq2. unfold PATCH_cartItem.
    rewrite (quantity_valid q Hq1), Hc, Hcart, Ho, Hp.
    destruct (Z.ltb_spec (Product.stock p) q); [reflexivity | lia].
  - intros quantity Hq. unfold PATCH_cartItem.
    destruct quantity as [| |q]; try reflexivity.
    specialize (Hq q eq_refl). simpl.
    destruct (Z.eqb_spec q 0); [reflexivity|].
    destruct (Z.ltb_spec q 1); [reflexivity | lia].
Qed.

Lemma own_cart_line_update_witness :
  fst (PATCH_cartItem (Some Sample.bob) "ci2" (Value 1) Sample.store)
  = NextResponse.json_ok
      (CartItemBody (CartItem.mk "ci2" "c2" "p1" 1) (Some Sample.widget))
  /\ PATCH_cartItem (Some Sample.bob) "ci2" (Value 2) Sample.store
     = (NextResponse.json (ErrorBody "Not enough stock available") 400,
        Sample.store)
  /\ PATCH_cartItem (Some Sample.bob) "ci2" (Value 0) Sample.store
     = (NextResponse.json (ErrorBody "Valid quantity is required") 400,
        Sample.store).
Proof.
  destruct (own_cart_line_update Sample.bob "ci2"
              (CartItem.mk "ci2" "c2" "p1" 1) (Cart.mk "c2" "bob")
              Sample.widget Sample.store) as (H1 & H2 & H3);
    [reflexivity ..|].
  split; [|split].
  - apply (H1 1). simpl. lia.
  - apply (H2 2); simpl; lia.
  - apply (H3 (Value 0)). intros q [= <-]. lia.
Defined.

(** X12. The owner's removal.  For the owner of an existing cart line,
    the removal is answered 200 [{ success: true }]; afterwards no line
    has the id, the lines with another id are the ones there were, and
    nothing but the cart items has changed. *)
Theorem own_cart_line_removed
        (user : SessionUser.t) (params_id : string) (c : CartItem.t)
        (cart : Cart.t) (st : Store) :
  findById CartItem.id params_id (cartItems st) = Some c ->
  findById Cart.id (CartItem.cartId c) (carts st) = Some cart ->
  Cart.userId cart = SessionUser.id user ->
  let r := DELETE_cartItem (Some user) params_id st in
  fst r = NextResponse.json_ok SuccessBody
  /\ snd r = with_cartItems st (cartItems (snd r))
  /\ findById CartItem.id params_id (cartItems (snd r)) = None
  /\ (forall x, CartItem.id x <> params_id ->
                (In x (cartItems (snd r)) <-> In x (cartItems st))).
Proof.
  intros Hc Hcart Hown r. subst r. unfold DELETE_cartItem.
  rewrite Hc, Hcart, Hown, String.eqb_refl. cbn [negb].
  unfold deleteById.
  rewrite (findById_existsb CartItem.id params_id (cartItems st) c Hc).
  simpl. split; [reflexivity|]. split; [reflexivity|].
  split; [apply findById_filter_other|].
  intros x Hx. rewrite filter_In.
  apply String.eqb_neq in Hx. rewrite Hx. simpl. tauto.
Qed.

Lemma own_cart_line_removed_witness :
  cartItems (snd (DELETE_cartItem (Some Sample.bob) "ci2" Sample.store))
  = [CartItem.mk "ci1" "c1" "p1" 1]
  /\ findById CartItem.id "ci2"
       (cartItems (snd (DELETE_cartItem (Some Sample.bob) "ci2"
                          Sample.store))) = None.
Proof.
  destruct (own_cart_line_removed Sample.bob "ci2"
              (CartItem.mk "ci2" "c2" "p1" 1) (Cart.mk "c2" "bob")
              Sample.store) as (_ & _ & Hnone & _);
    [reflexivity ..|].
  split; [reflexivity | exact Hnone].
Defined.

(** ** Products, continued *)

Lemma ProductCategory_of_string_nonempty (s : string) (c : ProductCategory) :
  ProductCategory_of_string s = Some c -> not_string (Value s) = false.
Proof.
  intros H. simpl. destruct (String.eqb_spec s EmptyString) as [->|];
    [discriminate | reflexivity].
Qed.

Section ProductWrites.
Variable parseFloat : string -> float.
Variable parseInt : string -> option Z.

Lemma updated_product_id (b : ProductInput.t) (p p' : Product.t) :
  updated_product parseFloat parseInt b p = Some p' ->
  Product.id p' = Product.id p.
Proof.
  unfold updated_product.
  destruct (ProductInput.name b) as [| |nm],
    (ProductInput.description b) as [| |ds],
    (ProductInput.price b) as [| |pr], (ProductInput.stock b) as [| |sk],
    (ProductInput.category b) as [| |ct]; try discriminate.
  destruct (match sk with inl z => Some z | inr s0 => parseInt s0 end);
    [|discriminate].
  destruct (ProductCategory_of_string ct); [|discriminate].
  destruct (_ && _); [|discriminate].
  intros [= <-]. reflexivity.
Qed.

Lemma is_Int_range (z : Z) :
  is_Int z = true <-> Int_min <= z <= Int_max.
Proof.
  unfold is_Int. rewrite andb_true_iff, !Z.leb_le. tauto.
Qed.

(** What a product update does to the store, case by case. *)
Lemma PUT_product_cases (session : Session) (params_id : string)
      (b : ProductInput.t) (st : Store) :
  let r := PUT_product parseFloat parseInt session params_id b st in
  (snd r = st /\ NextResponse.status (fst r) <> 200)
  \/ (NextResponse.status (fst r) = 200
      /\ exists f,
           (forall x, Product.id (f x) = Product.id x)
           /\ snd r
              = with_products st
                  (map (fun x => if String.eqb (Product.id x) params_id
                                 then f x else x) (products st))).
Proof.
  unfold PUT_product.
  destruct session as [user|]; [|left; split; [reflexivity | discriminate]].
  destruct (negb (is_staff (SessionUser.role user)));
    [left; split; [reflexivity | discriminate]|].
  destruct (String.eqb params_id EmptyString);
    [left; split; [reflexivity | discriminate]|].
  destruct (findById Product.id params_id (products st)) as [p|] eqn:Hp;
    [|left; split; [reflexivity | discriminate]].
  destruct (_ || _); [left; split; [reflexivity | discriminate]|].
  destruct (updated_product parseFloat parseInt b p) as [p'|];
    [|left; split; [reflexivity | discriminate]].
  rewrite (updateById_found Product.id params_id _ (products st) p Hp).
  right. split; [reflexivity|].
  eexists. split; [|reflexivity].
  intros x. simpl.
  destruct (updated_product parseFloat parseInt b x) as [x'|] eqn:Hx;
    [|reflexivity].
  now apply updated_product_id in Hx.
Qed.

(** What a well-formed update by a manager or admin does: it writes
    the row when the stock is in the range of the column and the price
    is a finite number, and fails otherwise. *)
Lemma PUT_product_ok
      (user : SessionUser.t) (params_id : string) (p0 : Product.t)
      (name description category : string) (image : JsField string)
      (price : float + string) (stock : Z + string) (z : Z)
      (c : ProductCategory) (st : Store) :
  is_staff (SessionUser.role user) = true ->
  params_id <> EmptyString ->
  findById Product.id params_id (products st) = Some p0 ->
  name <> EmptyString ->
  description <> EmptyString ->
  match stock with inl n => Some n | inr s => parseInt s end = Some z ->
  ProductCategory_of_string category = Some c ->
  let price' := match price with inl f => f | inr s => parseFloat s end in
  let row (x : Product.t) :=
    Product.mk (Product.id x) name description
      (written image (Product.image x)) price' z c in
  PUT_product parseFloat parseInt (Some user) params_id
    (ProductInput.mk (Value name) (Value description) image (Value price)
       (Value stock) (Value category)) st
  = if is_Int z && PrimFloat.is_finite price' then
      (NextResponse.json_ok (ProductBody (row p0)),
       with_products st
         (map (fun x => if String.eqb (Product.id x) params_id
                        then row x else x) (products st)))
    else
      (NextResponse.json (ErrorBody "Failed to update product") 500, st).
Proof.
  intros Hrole Hid Hp Hn Hd Hz Hc price' row.
  apply String.eqb_neq in Hid.
  unfold PUT_product. rewrite Hrole, Hid, Hp. cbn [negb].
  cbn [ProductInput.name ProductInput.description ProductInput.price
       ProductInput.stock ProductInput.category is_undefined].
  rewrite (not_string_value _ Hn), (not_string_value _ Hd),
    (ProductCategory_of_string_nonempty _ _ Hc).
  cbn [orb].
  unfold updated_product.
  cbn [ProductInput.name ProductInput.description ProductInput.price
       ProductInput.stock ProductInput.category ProductInput.image].
  rewrite Hz, Hc. fold price'.
  destruct (is_Int z && PrimFloat.is_finite price'); [|reflexivity].
  rewrite (updateById_found Product.id params_id _ (products st) p0 Hp).
  reflexivity.
Qed.

(** X13. What a product update writes.  Take a manager's or admin's
    update of an existing product with a name, a description, a price, a
    stock that is (or parses to) an integer and a category of the enum.
    - When the stock is in the 32-bit range of the column and the price
      is a finite number, the answer is 200 with the new row: the id is
      kept, the fields are the ones sent (an image that is not sent is
      kept), whatever their sign.  The row is then the one found under
      the id, and the rows with another id are the ones there were.
    - When the stock is outside that range the write fails: the answer
      is 500 "Failed to update product" and nothing changes. *)
Theorem PUT_product_writes_row
        (user : SessionUser.t) (params_id : string) (p0 : Product.t)
        (name description category : string) (image : JsField string)
        (price : float + string) (stock : Z + string) (z : Z)
        (c : ProductCategory) (st : Store) :
  is_staff (SessionUser.role user) = true ->
  params_id <> EmptyString ->
  findById Product.id params_id (products st) = Some p0 ->
  name <> EmptyString ->
  description <> EmptyString ->
  match stock with inl n => Some n | inr s => parseInt s end = Some z ->
  ProductCategory_of_string category = Some c ->
  let r :=
    PUT_product parseFloat parseInt (Some user) params_id
      (ProductInput.mk (Value name) (Value description) image (Value price)
         (Value stock) (Value category)) st in
  let price' := match price with inl f => f | inr s => parseFloat s end in
  let p' :=
    Product.mk (Product.id p0) name description
      (written image (Product.image p0)) price' z c in
  (Int_min <= z <= Int_max ->
   PrimFloat.is_finite price' = true ->
   fst r = NextResponse.json_ok (ProductBody p')
   /\ findById Product.id params_id (products (snd r)) = Some p'
   /\ (forall x, Product.id x <> params_id ->
                  (In x (products (snd r)) <-> In x (products st)))
   /\ snd r = with_products st (products (snd r)))
  /\ (z < Int_min \/ Int_max < z ->
      r = (NextResponse.json (ErrorBody "Failed to update product") 500,
           st)).
Proof.
  intros Hrole Hid Hp Hn Hd Hz Hc r price' p'. subst r.
  rewrite (PUT_product_ok user params_id p0 name description category image
             price stock z c st Hrole Hid Hp Hn Hd Hz Hc).
  fold price'. split.
  - intros Hrange Hfin. apply is_Int_range in Hrange.
    rewrite Hrange, Hfin. cbn [andb fst snd with_products products].
    split; [reflexivity|]. split; [|split; [|reflexivity]].
    + rewrite findById_map_update by reflexivity. now rewrite Hp.
    + intros x Hx. rewrite in_map_iff. split.
      * intros (y & Hy & Hin).
        destruct (String.eqb_spec (Product.id y) params_id) as [E|E].
        -- subst x. simpl in Hx. congruence.
        -- now subst x.
      * intros Hin. exists x. split; [|exact Hin].
        apply String.eqb_neq in Hx. now rewrite Hx.
  - intros Hbad.
    assert (is_Int z && PrimFloat.is_finite price' = false) as ->;
      [|reflexivity].
    destruct Hbad as [H | H].
    + apply andb_false_iff. left. unfold is_Int.
      apply andb_false_iff. left. apply Z.leb_gt. exact H.
    + apply andb_false_iff. left. unfold is_Int.
      apply andb_false_iff. right. apply Z.leb_gt. exact H.
Qed.

(** X14. A product update never adds, removes or renames a product:
    after any update request the ids in the table are the ids there
    were, each as often as before (the order in which a later read
    returns the rows is not part of this); and a request that is not
    answered 200 leaves the whole store as it was. *)
Theorem PUT_product_keeps_ids
        (session : Session) (params_id : string) (b : ProductInput.t)
        (st : Store) :
  let r := PUT_product parseFloat parseInt session params_id b st in
  Permutation (map Product.id (products (snd r)))
              (map Product.id (products st))
  /\ length (products (snd r)) = length (products st)
  /\ (NextResponse.status (fst r) <> 200 -> snd r = st).
Proof.
  intros r. subst r.
  destruct (PUT_product_cases session params_id b st)
    as [(E & Hs) | (Hs & f & Hf & E)]; rewrite E.
  - split; [apply Permutation_refl|]. split; reflexivity.
  - simpl. split; [|split; [apply length_map | congruence]].
    rewrite map_map.
    erewrite map_ext; [apply Permutation_refl|].
    intros x. simpl.
    destruct (String.eqb (Product.id x) params_id); auto.
Qed.

(** X15. A product read returns what the last update wrote: after an
    update as in the first case of X13 (stock in the 32-bit range, price
    a finite number), which is answered 200, GET /api/products/{id} is
    answered 200 with the row written, together with the reviews of the
    product. *)
Theorem GET_product_after_PUT
        (user : SessionUser.t) (params_id : string) (p0 : Product.t)
        (name description category : string) (image : JsField string)
        (price : float + string) (stock : Z + string) (z : Z)
        (c : ProductCategory) (st : Store)
        (us : list User.t) (t1 t2 : string -> Z) :
  is_staff (SessionUser.role user) = true ->
  params_id <> EmptyString ->
  findById Product.id params_id (products st) = Some p0 ->
  name <> EmptyString ->
  description <> EmptyString ->
  match stock with inl n => Some n | inr s => parseInt s end = Some z ->
  ProductCategory_of_string category = Some c ->
  Int_min <= z <= Int_max ->
  PrimFloat.is_finite
    match price with inl f => f | inr s => parseFloat s end = true ->
  let put :=
    PUT_product parseFloat parseInt (Some user) params_id
      (ProductInput.mk (Value name) (Value description) image
         (Value price) (Value stock) (Value category)) st in
  let db' := mkDatabase (snd put) us t1 t2 in
  NextResponse.status (fst put) = 200
  /\ GET_product params_id db'
     = Reply.json_ok
         (ProductWithReviewsBody
            (Product.mk (Product.id p0) name description
               (written image (Product.image p0))
               match price with inl f => f | inr s => parseFloat s end z c)
            (map (review_with_user db')
               (filter (fun r => String.eqb (Review.productId r)
                                   (Product.id p0))
                  (reviews st)))).
Proof.
  intros Hrole Hid Hp Hn Hd Hz Hc Hrange Hfin put db'. subst db' put.
  rewrite (PUT_product_ok user params_id p0 name description category image
             price stock z c st Hrole Hid Hp Hn Hd Hz Hc).
  apply is_Int_range in Hrange. rewrite Hrange, Hfin. cbn [andb].
  split; [reflexivity|].
  unfold GET_product. apply String.eqb_neq in Hid. rewrite Hid.
  cbn [snd store with_products products reviews].
  rewrite findById_map_update by reflexivity. rewrite Hp. reflexivity.
Qed.
End ProductWrites.

Lemma PUT_product_writes_row_witness :
  (let r :=
     PUT_product Sample.parseFloat Sample.parseInt (Some Sample.mallory) "p1"
       (ProductInput.mk (Value "Gadget"%string) (Value "A gadget"%string)
          Undefined (Value (inl 20%float)) (Value (inl (-5)))
          (Value "BOOKS"%string)) Sample.store in
   fst r = NextResponse.json_ok
             (ProductBody
                (Product.mk "p1" "Gadget" "A gadget" None 20%float (-5)
                   BOOKS))
   /\ findById Product.id "p1" (products (snd r))
      = Some (Product.mk "p1" "Gadget" "A gadget" None 20%float (-5) BOOKS))
  /\ PUT_product Sample.parseFloat Sample.parseInt (Some Sample.mallory) "p1"
       (ProductInput.mk (Value "Gadget"%string) (Value "A gadget"%string)
          Undefined (Value (inl 20%float)) (Value (inl 2147483648))
          (Value "BOOKS"%string)) Sample.store
     = (NextResponse.json (ErrorBody "Failed to update product") 500,
        Sample.store).
Proof.
  split.
  - destruct (PUT_product_writes_row Sample.parseFloat Sample.parseInt
                Sample.mallory "p1" Sample.widget "Gadget" "A gadget" "BOOKS"
                Undefined (inl 20%float) (inl (-5)) (-5) BOOKS Sample.store)
      as [H _];
      [reflexivity | discriminate | reflexivity | discriminate | discriminate
       | reflexivity | reflexivity |].
    destruct H as (H1 & H2 & _);
      [unfold Int_min, Int_max; lia | reflexivity |].
    split; [exact H1 | exact H2].
  - destruct (PUT_product_writes_row Sample.parseFloat Sample.parseInt
                Sample.mallory "p1" Sample.widget "Gadget" "A gadget" "BOOKS"
                Undefined (inl 20%float) (inl 2147483648) 2147483648 BOOKS
                Sample.store) as [_ H];
      [reflexivity | discriminate | reflexivity | discriminate | discriminate
       | reflexivity | reflexivity |].
    apply H. right. unfold Int_max. lia.
Defined.

Lemma PUT_product_keeps_ids_witness :
  snd (PUT_product Sample.parseFloat Sample.parseInt (Some Sample.alice) "p1"
         Sample.double_price Sample.store) = Sample.store.
Proof.
  apply (PUT_product_keeps_ids Sample.parseFloat Sample.parseInt
           (Some Sample.alice) "p1" Sample.double_price Sample.store).
  simpl. discriminate.
Defined.

Lemma GET_product_after_PUT_witness :
  GET_product "p1"
    (SampleDb.db_of
       (snd (PUT_product Sample.parseFloat Sample.parseInt
               (Some Sample.mallory) "p1"
               (ProductInput.mk (Value "Gadget"%string)
                  (Value "A gadget"%string) Undefined
                  (Value (inl 20%float)) (Value (inl 7))
                  (Value "BOOKS"%string)) Sample.store)))
  = Reply.json_ok
      (ProductWithReviewsBody
         (Product.mk "p1" "Gadget" "A gadget" None 20%float 7 BOOKS)
         [(Review.mk "r1" "alice" "p1" 4 (Some "fine"%string),
           Some (UserName.mk (Some "Alice"%string) None))]).
Proof.
  apply (GET_product_after_PUT Sample.parseFloat Sample.parseInt
           Sample.mallory "p1" Sample.widget "Gadget" "A gadget" "BOOKS"
           Undefined (inl 20%float) (inl 7) 7 BOOKS Sample.store
           SampleDb.users SampleDb.createdAt SampleDb.createdAt);
    [reflexivity | discriminate | reflexivity | discriminate | discriminate
     | reflexivity | reflexivity | unfold Int_min, Int_max; lia
     | reflexivity].
Defined.

(** What a product deletion does to the store, case by case. *)
Lemma DELETE_product_cases (session : Session) (params_id : string)
      (st : Store) :
  let r := DELETE_product session params_id st in
  (snd r = st /\ Reply.status (fst r) <> 200)
  \/ (Reply.status (fst r) = 200
      /\ restricts_delete st params_id = false
      /\ snd r
         = with_products st
             (filter (fun p => negb (String.eqb (Product.id p) params_id))
                     (products st))).
Proof.
  unfold DELETE_product.
  destruct session as [user|]; [|left; split; [reflexivity | discriminate]].
  destruct (negb (is_staff (SessionUser.role user)));
    [left; split; [reflexivity | discriminate]|].
  destruct (String.eqb params_id EmptyString);
    [left; split; [reflexivity | discriminate]|].
  destruct (findById Product.id params_id (products st)) as [p|] eqn:Hp;
    [|left; split; [reflexivity | discriminate]].
  destruct (find _ (orderItems st));
    [left; split; [reflexivity | discriminate]|].
  destruct (restricts_delete st params_id) eqn:Hr;
    [left; split; [reflexivity | discriminate]|].
  unfold deleteById.
  rewrite (findById_existsb Product.id params_id (products st) p Hp).
  right. auto.
Qed.

Lemma findById_filter_keeps {Row : Set} (row_id : Row -> string)
      (i j : string) (rows : list Row) :
  j <> i ->
  findById row_id j
    (filter (fun r => negb (String.eqb (row_id r) i)) rows)
  = findById row_id j rows.
Proof.
  intros Hji. unfold findById.
  induction rows as [|r rows IH]; simpl; [reflexivity|].
  destruct (String.eqb_spec (row_id r) i) as [E|E]; simpl.
  - destruct (String.eqb_spec (row_id r) j); [congruence | exact IH].
  - destruct (String.eqb (row_id r) j); [reflexivity | exact IH].
Qed.

Lemma restricts_delete_false (st : Store) (productId : string) :
  restricts_delete st productId = false ->
  Forall (fun i => OrderItem.productId i <> productId) (orderItems st)
  /\ Forall (fun c => CartItem.productId c <> productId) (cartItems st)
  /\ Forall (fun r => Review.productId r <> productId) (reviews st).
Proof.
  unfold restricts_delete. intros H.
  apply orb_false_iff in H as [H H3]. apply orb_false_iff in H as [H1 H2].
  repeat split; apply Forall_forall; intros x Hx E.
  - assert (existsb (fun i => String.eqb (OrderItem.productId i) productId)
              (orderItems st) = true); [|congruence].
    apply existsb_exists. exists x. split; [exact Hx|].
    now apply String.eqb_eq.
  - assert (existsb (fun i => String.eqb (CartItem.productId i) productId)
              (cartItems st) = true); [|congruence].
    apply existsb_exists. exists x. split; [exact Hx|].
    now apply String.eqb_eq.
  - assert (existsb (fun i => String.eqb (Review.productId i) productId)
              (reviews st) = true); [|congruence].
    apply existsb_exists. exists x. split; [exact Hx|].
    now apply String.eqb_eq.
Qed.

(** X16. Deleting a product.  For a manager or admin and an existing
    product:
    - when an OrderItem names the product the answer is 400 and nothing
      changes;
    - when none does but a CartItem or a Review names it, the database
      refuses the deletion: the answer is 500 and nothing changes;
    - when no row names it the answer is 200, no product has the id
      afterwards, and the products with another id are found as before. *)
Theorem DELETE_product_outcomes
        (user : SessionUser.t) (params_id : string) (p : Product.t)
        (st : Store) :
  is_staff (SessionUser.role user) = true ->
  params_id <> EmptyString ->
  findById Product.id params_id (products st) = Some p ->
  let r := DELETE_product (Some user) params_id st in
  ((exists i, In i (orderItems st) /\ OrderItem.productId i = params_id) ->
   Reply.status (fst r) = 400 /\ snd r = st)
  /\ ((forall i, In i (orderItems st) -> OrderItem.productId i <> params_id) ->
      ((exists c, In c (cartItems st) /\ CartItem.productId c = params_id)
       \/ (exists w, In w (reviews st) /\ Review.productId w = params_id)) ->
      Reply.status (fst r) = 500 /\ snd r = st)
  /\ (restricts_delete st params_id = false ->
      fst r = Reply.json_ok (MessageBody "Product deleted successfully")
      /\ findById Product.id params_id (products (snd r)) = None
      /\ (forall j, j <> params_id ->
                    findById Product.id j (products (snd r))
                    = findById Product.id j (products st))
      /\ snd r = with_products st (products (snd r))).
Proof.
  intros Hrole Hid Hp r. subst r.
  pose proof Hid as Hid'. apply String.eqb_neq in Hid'.
  unfold DELETE_product. rewrite Hrole, Hid', Hp. cbn [negb].
  split; [|split].
  - intros (i & Hin & Hi).
    destruct (find _ (orderItems st)) eqn:F; [split; reflexivity|].
    apply (find_none _ _ F) in Hin. rewrite Hi, String.eqb_refl in Hin.
    discriminate.
  - intros Hno Hsome.
    destruct (find _ (orderItems st)) as [i|] eqn:F.
    { apply find_some in F as [Hin Hi]. apply String.eqb_eq in Hi.
      exfalso. exact (Hno i Hin Hi). }
    assert (restricts_delete st params_id = true) as ->;
      [|split; reflexivity].
    unfold restricts_delete.
    destruct Hsome as [(c & Hin & Hc) | (w & Hin & Hw)].
    + assert (existsb (fun c0 => String.eqb (CartItem.productId c0) params_id)
                (cartItems st) = true) as ->.
      { apply existsb_exists. exists c. split; [exact Hin|].
        now apply String.eqb_eq. }
      now rewrite orb_true_r.
    + assert (existsb (fun r => String.eqb (Review.productId r) params_id)
                (reviews st) = true) as ->.
      { apply existsb_exists. exists w. split; [exact Hin|].
        now apply String.eqb_eq. }
      now rewrite orb_true_r.
  - intros Hr.
    destruct (find _ (orderItems st)) as [i|] eqn:F.
    { apply find_some in F as [Hin Hi]. apply String.eqb_eq in Hi.
      destruct (restricts_delete_false st params_id Hr) as [H1 _].
      rewrite Forall_forall in H1. exfalso. exact (H1 i Hin Hi). }
    rewrite Hr. unfold deleteById.
    rewrite (findById_existsb Product.id params_id (products st) p Hp).
    cbn [fst snd with_products products].
    split; [reflexivity|]. split; [apply findById_filter_other|].
    split; [|reflexivity].
    intros j Hj. now apply findById_filter_keeps.
Qed.

Lemma DELETE_product_outcomes_witness :
  Reply.status (fst (DELETE_product (Some Sample.mallory) "p1" Sample.store))
  = 400
  /\ snd (DELETE_product (Some Sample.mallory) "p1" Sample.store)
     = Sample.store.
Proof.
  destruct (DELETE_product_outcomes Sample.mallory "p1" Sample.widget
              Sample.store) as (H & _ & _);
    [reflexivity | discriminate | reflexivity |].
  apply H. exists (OrderItem.mk "oi1" "o1" "p1" 1 10%float).
  split; [left|]; reflexivity.
Defined.

(** ** References to products *)

Lemma findById_map_keeps_id {Row : Set} (row_id : Row -> string)
      (i : string) (g : Row -> Row) (rows : list Row) :
  (forall x, row_id (g x) = row_id x) ->
  findById row_id i (map g rows) = option_map g (findById row_id i rows).
Proof.
  intros Hg. unfold findById.
  induction rows as [|x rows IH]; simpl; [reflexivity|].
  rewrite Hg. destruct (String.eqb (row_id x) i); [reflexivity | exact IH].
Qed.

Lemma product_known_map (st : Store) (g : Product.t -> Product.t)
      (st' : Store) (productId : string) :
  (forall x, Product.id (g x) = Product.id x) ->
  products st' = map g (products st) ->
  product_known st productId -> product_known st' productId.
Proof.
  unfold product_known. intros Hg E H. rewrite E.
  rewrite findById_map_keeps_id by exact Hg.
  destruct (findById Product.id productId (products st));
    [discriminate | congruence].
Qed.

Lemma product_refs_ok_products (st st' : Store) (g : Product.t -> Product.t) :
  (forall x, Product.id (g x) = Product.id x) ->
  products st' = map g (products st) ->
  orderItems st' = orderItems st ->
  cartItems st' = cartItems st ->
  reviews st' = reviews st ->
  product_refs_ok st -> product_refs_ok st'.
Proof.
  intros Hg Ep Eo Ec Er (H1 & H2 & H3).
  unfold product_refs_ok. rewrite Eo, Ec, Er.
  repeat split; (eapply Forall_impl; [|eassumption]);
    intros x Hx; eapply product_known_map; eassumption.
Qed.

Lemma product_refs_ok_same_products (st st' : Store) :
  products st' = products st ->
  Forall (fun i => product_known st' (OrderItem.productId i))
         (orderItems st') ->
  Forall (fun c => product_known st' (CartItem.productId c))
         (cartItems st') ->
  Forall (fun r => product_known st' (Review.productId r)) (reviews st') ->
  product_refs_ok st'.
Proof. intros _ H1 H2 H3. repeat split; assumption. Qed.

Lemma create_items_productId (cuid_item : nat -> string) (orderId : string)
      (items : list CartItemWithProduct.t) :
  forall k,
    map OrderItem.productId (create_items cuid_item k orderId items)
    = map CartItemWithProduct.productId items.
Proof.
  induction items as [|i items IH]; intros k; simpl; [reflexivity|].
  now rewrite IH.
Qed.

(** What a checkout does to the store, case by case. *)
Lemma POST_orders_store_cases
      (session : Session) (addressId : JsField string) (cuid_order : string)
      (cuid_item : nat -> string) (st : Store) :
  let st' := snd (POST_orders session addressId cuid_order cuid_item st) in
  st' = st
  \/ exists user aid cart items,
       session = Some user
       /\ include_products st (cart_items st cart) = Some items
       /\ st'
          = mkStore
              (map (fun p => Product.with_stock p
                               (Product.stock p
                                - ordered_quantity items (Product.id p)))
                   (products st))
              (orders st
                 ++ [Order.mk cuid_order (SessionUser.id user) PENDING
                       (cart_total items) aid])
              (orderItems st ++ create_items cuid_item 0 cuid_order items)
              (reviews st)
              (carts st)
              (deleteMany
                 (fun i => String.eqb (CartItem.cartId i) (Cart.id cart))
                 (cartItems st))
              (addresses st).
Proof.
  unfold POST_orders, checkout_validate.
  destruct session as [user|]; [|now left].
  destruct addressId as [| |aid]; try (now left).
  destruct (String.eqb aid EmptyString); [now left|].
  destruct (find_address st aid (SessionUser.id user)); [|now left].
  destruct (find_cart st (SessionUser.id user)) as [cart|] eqn:Hc;
    [|now left].
  destruct (cart_items st cart) as [|c cs] eqn:El; [now left|].
  destruct (include_products st (c :: cs)) as [items|] eqn:Hi; [|now left].
  destruct (first_insufficient items) eqn:Hf; [now left|].
  right. exists user, aid, cart, items.
  rewrite El. split; [reflexivity|]. split; [exact Hi|].
  unfold checkout_commit, checkout_transaction. simpl.
  now rewrite (update_stock_spec items (products st)
                 (include_products_present st _ items Hi)).
Qed.

(** What the cart line handlers do to the store, case by case. *)
Lemma PATCH_cartItem_cases (session : Session) (params_id : string)
      (quantity : JsField Z) (st : Store) :
  snd (PATCH_cartItem session params_id quantity st) = st
  \/ exists q,
       snd (PATCH_cartItem session params_id quantity st)
       = with_cartItems st
           (map (fun x => if String.eqb (CartItem.id x) params_id
                          then CartItem.with_quantity x q else x)
                (cartItems st)).
Proof.
  unfold PATCH_cartItem.
  destruct session as [user|]; [|now left].
  destruct (_ || _); [now left|].
  destruct (findById CartItem.id params_id (cartItems st)) as [c|] eqn:Hc;
    [|now left].
  destruct (findById Cart.id (CartItem.cartId c) (carts st)); [|now left].
  destruct (negb _); [now left|].
  destruct (findById Product.id (CartItem.productId c) (products st))
    as [p|]; [|now left].
  destruct quantity as [| |q]; try (now left).
  destruct (Product.stock p <? q); [now left|].
  rewrite (updateById_found CartItem.id params_id _ (cartItems st) c Hc).
  right. exists q. reflexivity.
Qed.

Lemma DELETE_cartItem_cases (session : Session) (params_id : string)
      (st : Store) :
  snd (DELETE_cartItem session params_id st) = st
  \/ snd (DELETE_cartItem session params_id st)
     = with_cartItems st
         (filter (fun x => negb (String.eqb (CartItem.id x) params_id))
                 (cartItems st)).
Proof.
  unfold DELETE_cartItem.
  destruct session as [user|]; [|now left].
  destruct (findById CartItem.id params_id (cartItems st)) as [c|] eqn:Hc;
    [|now left].
  destruct (findById Cart.id (CartItem.cartId c) (carts st)); [|now left].
  destruct (negb _); [now left|].
  unfold deleteById.
  rewrite (findById_existsb CartItem.id params_id (cartItems st) c Hc).
  now right.
Qed.

(** X17. No handler leaves a dangling product reference.  When every
    OrderItem, CartItem and Review names a product of the catalogue, this
    still holds after a checkout, a status change, a review submission, a
    cart line update or removal, a product update and a product deletion,
    whatever the request. *)
Theorem handlers_keep_product_refs
        (parseFloat : string -> float) (parseInt : string -> option Z)
        (st : Store) :
  product_refs_ok st ->
  (forall session addressId cuid_order cuid_item,
      product_refs_ok
        (snd (POST_orders session addressId cuid_order cuid_item st)))
  /\ (forall session params_id status,
         product_refs_ok (snd (PATCH_order session params_id status st)))
  /\ (forall session productId rating comment cuid,
         product_refs_ok
           (snd (POST_reviews session productId rating comment cuid st)))
  /\ (forall session params_id quantity,
         product_refs_ok
           (snd (PATCH_cartItem session params_id quantity st)))
  /\ (forall session params_id,
         product_refs_ok (snd (DELETE_cartItem session params_id st)))
  /\ (forall session params_id b,
         product_refs_ok
           (snd (PUT_product parseFloat parseInt session params_id b st)))
  /\ (forall session params_id,
         product_refs_ok (snd (DELETE_product session params_id st))).
Proof.
  intros Hok. pose proof Hok as (H1 & H2 & H3).
  split; [|split; [|split; [|split; [|split; [|split]]]]].
  - intros session addressId cuid_order cuid_item.
    destruct (POST_orders_store_cases session addressId cuid_order cuid_item
                st) as [E | (user & aid & cart & items & _ & Hi & E)];
      rewrite E; [exact Hok|].
    set (g := fun p => Product.with_stock p
                         (Product.stock p
                          - ordered_quantity items (Product.id p))).
    assert (Hk : forall pid, product_known st pid ->
                             product_known
                               (mkStore (map g (products st))
                                  (orders st ++ [Order.mk cuid_order
                                                   (SessionUser.id user)
                                                   PENDING (cart_total items)
                                                   aid])
                                  (orderItems st
                                     ++ create_items cuid_item 0 cuid_order
                                          items)
                                  (reviews st) (carts st)
                                  (deleteMany
                                     (fun i => String.eqb (CartItem.cartId i)
                                                 (Cart.id cart))
                                     (cartItems st))
                                  (addresses st)) pid).
    { intros pid. apply (product_known_map st g); reflexivity. }
    unfold product_refs_ok. cbn [orderItems cartItems reviews].
    split; [|split].
    + apply Forall_app. split.
      * eapply Forall_impl; [|exact H1]. intros x. apply Hk.
      * destruct (include_products_map st _ items Hi) as [_ Hprod].
        apply Forall_forall. intros oi Hoi.
        apply (in_map OrderItem.productId) in Hoi.
        rewrite create_items_productId in Hoi.
        apply in_map_iff in Hoi as (item & Hpid & Hin).
        rewrite Forall_forall in Hprod. specialize (Hprod item Hin).
        apply Hk. unfold product_known. rewrite <- Hpid, Hprod.
        discriminate.
    + unfold deleteMany. apply Forall_forall. intros c Hc.
      apply filter_In in Hc as [Hc _].
      rewrite Forall_forall in H2. apply Hk, H2, Hc.
    + eapply Forall_impl; [|exact H3]. intros x. apply Hk.
  - intros session params_id status.
    destruct (PATCH_order_cases session params_id status st)
      as [E | (s' & E & _)]; rewrite E; exact Hok.
  - intros session productId rating comment cuid.
    destruct (POST_reviews_cases session productId rating comment cuid st)
      as [(E & _) | [(e & n & _ & _ & E)
                    | (user & pid & n & _ & _ & Hp & _ & E)]];
      rewrite E; [exact Hok | |].
    + split; [exact H1|]. split; [exact H2|].
      cbn [reviews with_reviews]. apply Forall_map.
      eapply Forall_impl; [|exact H3]. intros r Hr.
      destruct (String.eqb (Review.id r) (Review.id e)); exact Hr.
    + split; [exact H1|]. split; [exact H2|].
      cbn [reviews with_reviews]. apply Forall_app. split; [exact H3|].
      constructor; [exact Hp | constructor].
  - intros session params_id quantity.
    destruct (PATCH_cartItem_cases session params_id quantity st)
      as [E | (q & E)]; rewrite E; [exact Hok|].
    split; [exact H1|]. split; [|exact H3].
    cbn [cartItems with_cartItems]. apply Forall_map.
    eapply Forall_impl; [|exact H2]. intros c Hc.
    destruct (String.eqb (CartItem.id c) params_id); exact Hc.
  - intros session params_id.
    destruct (DELETE_cartItem_cases session params_id st) as [E | E];
      rewrite E; [exact Hok|].
    split; [exact H1|]. split; [|exact H3].
    cbn [cartItems with_cartItems]. apply Forall_forall. intros c Hc.
    apply filter_In in Hc as [Hc _]. rewrite Forall_forall in H2.
    apply H2, Hc.
  - intros session params_id b.
    destruct (PUT_product_cases parseFloat parseInt session params_id b st)
      as [(E & _) | (_ & f & Hf & E)]; rewrite E; [exact Hok|].
    apply (product_refs_ok_products st _
             (fun x => if String.eqb (Product.id x) params_id
                       then f x else x)); try reflexivity; [|exact Hok].
    intros x. destruct (String.eqb (Product.id x) params_id); auto.
  - intros session params_id.
    destruct (DELETE_product_cases session params_id st)
      as [(E & _) | (_ & Hr & E)]; rewrite E; [exact Hok|].
    destruct (restricts_delete_false st params_id Hr) as (R1 & R2 & R3).
    unfold product_refs_ok, product_known.
    cbn [orderItems cartItems reviews products with_products].
    rewrite Forall_forall in H1, H2, H3, R1, R2, R3.
    split; [|split]; apply Forall_forall; intros x Hx;
      (rewrite findById_filter_keeps; [|auto]).
    + exact (H1 x Hx).
    + exact (H2 x Hx).
    + exact (H3 x Hx).
Qed.

Lemma sample_product_refs_ok : product_refs_ok Sample.store.
Proof.
  repeat split; repeat constructor; unfold product_known; simpl;
    discriminate.
Qed.

Lemma handlers_keep_product_refs_witness :
  product_refs_ok
    (snd (POST_orders (Some Sample.alice) (Value "a1"%string) "o2"
            (Sample.cuid_item "x") Sample.store))
  /\ product_refs_ok
       (snd (DELETE_product (Some Sample.mallory) "p1" Sample.store)).
Proof.
  destruct (handlers_keep_product_refs Sample.parseFloat Sample.parseInt
              Sample.store sample_product_refs_ok)
    as (H1 & _ & _ & _ & _ & _ & H7).
  split; [apply H1 | apply H7].
Defined.

(** ** Reading orders and reviews *)

Section OrderByFacts.
Context {Row : Type}.
Variable key : Row -> Z.

Lemma insert_desc_perm (x : Row) (l : list Row) :
  Permutation (insert_desc key x l) (x :: l).
Proof.
  induction l as [|y l IH]; simpl.
  - apply Permutation_refl.
  - destruct (key y <=? key x).
    + apply Permutation_refl.
    + eapply Permutation_trans; [apply perm_skip, IH | apply perm_swap].
Qed.

Lemma orderBy_desc_perm (l : list Row) :
  Permutation (orderBy_desc key l) l.
Proof.
  induction l as [|x l IH]; simpl.
  - apply Permutation_refl.
  - eapply Permutation_trans; [apply insert_desc_perm|].
    apply perm_skip, IH.
Qed.

Lemma insert_desc_sorted (x : Row) (l : list Row) :
  sorted_desc key l -> sorted_desc key (insert_desc key x l).
Proof.
  unfold sorted_desc.
  induction 1 as [|y l Hs IH Hy]; simpl.
  - constructor; constructor.
  - destruct (Z.leb_spec (key y) (key x)) as [Hle|Hlt].
    + constructor.
      * constructor; assumption.
      * constructor; [exact Hle|].
        eapply Forall_impl; [|exact Hy]. intros z Hz. simpl in Hz. lia.
    + constructor; [exact IH|].
      apply (Permutation_Forall (Permutation_sym (insert_desc_perm x l))).
      constructor; [lia | exact Hy].
Qed.

Lemma orderBy_desc_sorted (l : list Row) :
  sorted_desc key (orderBy_desc key l).
Proof.
  induction l as [|x l IH]; simpl.
  - constructor.
  - apply insert_desc_sorted, IH.
Qed.
End OrderByFacts.

Lemma listed_orders_GET (user : SessionUser.t) (db : Database) :
  listed_orders (GET_orders (Some user) db)
  = orderBy_desc (fun o => order_createdAt db (Order.id o))
      (filter (orders_where user) (orders (store db))).
Proof.
  unfold listed_orders, GET_orders. simpl.
  rewrite map_map. simpl. apply map_id.
Qed.

(** X18. Role scoping of the order list.  An authenticated request is
    answered 200.  For a manager or admin the orders listed are the
    orders of the store; for any other caller they are the orders of the
    store whose owner is the caller, all of them and no other.  Without
    a session the answer is 401 and lists nothing. *)
Theorem GET_orders_role_scoped (user : SessionUser.t) (db : Database) :
  Reply.status (GET_orders (Some user) db) = 200
  /\ (is_staff (SessionUser.role user) = true ->
      forall o, In o (listed_orders (GET_orders (Some user) db))
                <-> In o (orders (store db)))
  /\ (is_staff (SessionUser.role user) = false ->
      forall o, In o (listed_orders (GET_orders (Some user) db))
                <-> In o (orders (store db))
                    /\ Order.userId o = SessionUser.id user)
  /\ GET_orders None db = Reply.json (ReadError "Unauthorized") 401.
Proof.
  split; [reflexivity|].
  assert (Hin : forall o,
             In o (listed_orders (GET_orders (Some user) db))
             <-> In o (filter (orders_where user) (orders (store db)))).
  { intros o. rewrite listed_orders_GET. split; intros H.
    - eapply Permutation_in; [apply orderBy_desc_perm | exact H].
    - eapply Permutation_in;
        [apply Permutation_sym, orderBy_desc_perm | exact H]. }
  split; [|split; [|reflexivity]].
  - intros Hrole o. rewrite Hin, filter_In. unfold orders_where.
    rewrite Hrole. tauto.
  - intros Hrole o. rewrite Hin, filter_In. unfold orders_where.
    rewrite Hrole. split; intros [H1 H2]; split; auto.
    + now apply String.eqb_eq.
    + now apply String.eqb_eq.
Qed.

(** X19. The order list is newest first and complete: it is a
    rearrangement of the orders selected for the caller, none dropped and
    none repeated, in the order of decreasing [createdAt]. *)
Theorem GET_orders_newest_first (user : SessionUser.t) (db : Database) :
  Permutation (listed_orders (GET_orders (Some user) db))
              (filter (orders_where user) (orders (store db)))
  /\ sorted_desc (fun o => order_createdAt db (Order.id o))
                 (listed_orders (GET_orders (Some user) db)).
Proof.
  rewrite listed_orders_GET. split.
  - apply orderBy_desc_perm.
  - apply orderBy_desc_sorted.
Qed.

(** X20. Access to a single order.  For an authenticated caller and an
    order id:
    - when no order has the id the answer is 404, whoever asks;
    - when the order exists and the caller is a CUSTOMER who does not
      own it, the answer is 403 (so 403 against 404 tells a customer
      whether the id exists);
    - otherwise the answer is 200 with the order.
    So a CUSTOMER who is answered 200 owns the order. *)
Theorem GET_order_access
        (user : SessionUser.t) (params_id : string) (db : Database) :
  params_id <> EmptyString ->
  (findById Order.id params_id (orders (store db)) = None ->
   GET_order (Some user) params_id db
   = Reply.json (ReadError "Order not found") 404)
  /\ (forall o,
         findById Order.id params_id (orders (store db)) = Some o ->
         (SessionUser.role user = CUSTOMER ->
          Order.userId o <> SessionUser.id user ->
          GET_order (Some user) params_id db
          = Reply.json (ReadError "Forbidden") 403)
         /\ (SessionUser.role user <> CUSTOMER
             \/ Order.userId o = SessionUser.id user ->
             GET_order (Some user) params_id db
             = Reply.json_ok (OrderDetailBody (order_detail db o))))
  /\ (Reply.status (GET_order (Some user) params_id db) = 200 ->
      SessionUser.role user = CUSTOMER ->
      exists o, findById Order.id params_id (orders (store db)) = Some o
                /\ Order.userId o = SessionUser.id user).
Proof.
  intros Hid. apply String.eqb_neq in Hid.
  unfold GET_order. rewrite Hid.
  split; [|split].
  - intros ->. reflexivity.
  - intros o ->. split.
    + intros -> Hown. apply String.eqb_neq in Hown. now rewrite Hown.
    + intros [Hrole | Hown].
      * destruct (SessionUser.role user); [congruence | reflexivity ..].
      * rewrite Hown, String.eqb_refl.
        destruct (SessionUser.role user); reflexivity.
  - intros Hs Hrole. rewrite Hrole in Hs.
    destruct (findById Order.id params_id (orders (store db))) as [o|];
      [|discriminate].
    exists o. split; [reflexivity|].
    destruct (String.eqb_spec (Order.userId o) (SessionUser.id user));
      [assumption | discriminate].
Qed.

Lemma GET_order_access_witness :
  GET_order (Some Sample.bob) "o1" SampleDb.db
  = Reply.json (ReadError "Forbidden") 403
  /\ GET_order (Some Sample.bob) "o9" SampleDb.db
     = Reply.json (ReadError "Order not found") 404
  /\ Reply.status (GET_order (Some Sample.alice) "o1" SampleDb.db) = 200
  /\ Reply.status (GET_order (Some Sample.mallory) "o1" SampleDb.db) = 200.
Proof.
  split; [|split; [|split]].
  - destruct (GET_order_access Sample.bob "o1" SampleDb.db) as (_ & H & _);
      [discriminate|].
    destruct (H (Order.mk "o1" "alice" DELIVERED 10%float "a1")) as [H403 _];
      [reflexivity|].
    apply H403; [reflexivity | discriminate].
  - destruct (GET_order_access Sample.bob "o9" SampleDb.db) as (H & _);
      [discriminate|].
    apply H. reflexivity.
  - reflexivity.
  - reflexivity.
Defined.






Lemma listed_reviews_GET (productId : string) (db : Database) :
  productId <> EmptyString ->
  listed_reviews (GET_reviews (Some productId) db)
  = orderBy_desc (fun r => review_createdAt db (Review.id r))
      (filter (fun r => String.eqb (Review.productId r) productId)
         (reviews (store db))).
Proof.
  intros H. apply String.eqb_neq in H.
  unfold listed_reviews, GET_reviews. rewrite H. simpl.
  rewrite map_map. simpl. apply map_id.
Qed.

(** X22. The reviews of a product.  For a product id in the query, the
    answer is 200 and lists the reviews of that product, all of them
    and no other, each once, newest first; their number is the review
    count of the product.  Without a product id (or with an empty one)
    the answer is 400. *)
Theorem GET_reviews_of_product (productId : string) (db : Database) :
  productId <> EmptyString ->
  let r := GET_reviews (Some productId) db in
  Reply.status r = 200
  /\ Permutation (listed_reviews r)
       (filter (fun w => String.eqb (Review.productId w) productId)
          (reviews (store db)))
  /\ (forall w, In w (listed_reviews r)
                <-> In w (reviews (store db))
                    /\ Review.productId w = productId)
  /\ length (listed_reviews r) = review_count (store db) productId
  /\ sorted_desc (fun w => review_createdAt db (Review.id w))
                 (listed_reviews r)
  /\ GET_reviews None db
     = Reply.json (ReadError "Product ID is required") 400
  /\ GET_reviews (Some EmptyString) db
     = Reply.json (ReadError "Product ID is required") 400.
Proof.
  intros Hne r. subst r.
  rewrite (listed_reviews_GET productId db Hne).
  pose proof (orderBy_desc_perm
                (fun w => review_createdAt db (Review.id w))
                (filter (fun w => String.eqb (Review.productId w) productId)
                   (reviews (store db)))) as Hperm.
  split.
  { unfold GET_reviews. apply String.eqb_neq in Hne. now rewrite Hne. }
  split; [exact Hperm|]. split; [|split; [|split; [|split]]].
  - intros w. split.
    + intros H. apply (Permutation_in _ Hperm) in H.
      apply filter_In in H as [H1 H2]. split; [exact H1|].
      now apply String.eqb_eq.
    + intros [H1 H2]. apply (Permutation_in _ (Permutation_sym Hperm)).
      apply filter_In. split; [exact H1|]. now apply String.eqb_eq.
  - unfold review_count. now apply Permutation_length.
  - apply orderBy_desc_sorted.
  - reflexivity.
  - reflexivity.
Qed.

Lemma GET_reviews_of_product_witness :
  listed_reviews (GET_reviews (Some "p1"%string) SampleDb.db)
  = [Review.mk "r1" "alice" "p1" 4 (Some "fine"%string)]
  /\ length (listed_reviews (GET_reviews (Some "p1"%string) SampleDb.db))
     = review_count Sample.store "p1".
Proof.
  destruct (GET_reviews_of_product "p1" SampleDb.db)
    as (_ & _ & _ & Hlen & _); [discriminate|].
  split; [reflexivity | exact Hlen].
Defined.

(** X23. A review submitted is a review listed.  After an accepted
    submission (a CUSTOMER who may review the product, a rating in
    1..5), GET /api/reviews for the product lists a review of the caller
    for the product with the rating sent. *)
Theorem GET_reviews_after_POST
        (user : SessionUser.t) (productId : string) (p : Product.t) (n : Z)
        (comment : JsField string) (cuid : string) (st : Store)
        (us : list User.t) (t1 t2 : string -> Z) :
  SessionUser.role user = CUSTOMER ->
  productId <> EmptyString ->
  1 <= n <= 5 ->
  findById Product.id productId (products st) = Some p ->
  canReview st (SessionUser.id user) productId ->
  let st' :=
    snd (POST_reviews (Some user) (Value productId) (Value n) comment cuid st)
  in
  exists w,
    In w (listed_reviews
            (GET_reviews (Some productId) (mkDatabase st' us t1 t2)))
    /\ Review.userId w = SessionUser.id user
    /\ Review.productId w = productId
    /\ Review.rating w = n.
Proof.
  intros Hrole Hpid Hn Hp Hcan st'.
  apply hasPurchased_canReview in Hcan.
  destruct (hasPurchased st (SessionUser.id user) productId) as [i|] eqn:Hi;
    [|congruence].
  pose proof (POST_reviews_eligible user productId p n comment cuid st i
                Hrole Hpid Hn Hp Hi) as HP.
  assert (Hlisted : forall w, In w (reviews st') ->
                              Review.productId w = productId ->
                              In w (listed_reviews
                                      (GET_reviews (Some productId)
                                         (mkDatabase st' us t1 t2)))).
  { intros w Hw Hq. rewrite listed_reviews_GET by exact Hpid.
    apply (Permutation_in _ (Permutation_sym (orderBy_desc_perm _ _))).
    apply filter_In. split; [exact Hw|]. now apply String.eqb_eq. }
  destruct (existingReview st (SessionUser.id user) productId) as [e|] eqn:He.
  - unfold existingReview in He. apply find_some in He as [Hin He].
    apply andb_true_iff in He as [Hu Hq].
    apply String.eqb_eq in Hu, Hq.
    exists (update_review n comment e).
    split; [|simpl; auto].
    apply Hlisted; [|exact Hq].
    unfold st'. rewrite HP. cbn [snd reviews with_reviews].
    apply in_map_iff. exists e. split; [|exact Hin].
    now rewrite String.eqb_refl.
  - exists (new_review cuid (SessionUser.id user) productId n comment).
    split; [|simpl; auto].
    apply Hlisted; [|reflexivity].
    unfold st'. rewrite HP. cbn [snd reviews with_reviews].
    apply in_or_app. right. left. reflexivity.
Qed.

Lemma GET_reviews_after_POST_witness :
  exists w,
    In w (listed_reviews
            (GET_reviews (Some "p1"%string)
               (SampleDb.db_of
                  (snd (POST_reviews (Some Sample.alice) (Value "p1"%string)
                          (Value 2) Null "r2" Sample.store)))))
    /\ Review.userId w = "alice"%string
    /\ Review.rating w = 2.
Proof.
  destruct (GET_reviews_after_POST Sample.alice "p1" Sample.widget 2 Null
              "r2" Sample.store SampleDb.users SampleDb.createdAt
              SampleDb.createdAt) as (w & Hin & Hu & _ & Hn).
  - reflexivity.
  - discriminate.
  - lia.
  - reflexivity.
  - exists (OrderItem.mk "oi1" "o1" "p1" 1 10%float),
      (Order.mk "o1" "alice" DELIVERED 10%float "a1").
    repeat split. left. reflexivity.
  - exists w. auto.
Defined.

(** ** The middleware *)

Lemma prefix_split (p s : string) :
  String.prefix p s = true -> exists rest, s = (p ++ rest)%string.
Proof.
  revert s. induction p as [|c p IH]; intros s H.
  - exists s. reflexivity.
  - destruct s as [|d s]; simpl in H; [discriminate|].
    destruct (Ascii.ascii_dec c d) as [<-|]; [|discriminate].
    destruct (IH s H) as [rest ->]. exists rest. reflexivity.
Qed.

Lemma not_staff_role_name (r : UserRole) :
  not_staff_role (Some (role_name r)) = negb (is_staff r).
Proof. destruct r; reflexivity. Qed.

Section MiddlewareFacts.
Variable encodeURI : string -> string.

(** X24. The API is behind the session.  For a path under /api/ that
    is not under /api/auth and does not contain "/favicon.ico", a request
    without a token is redirected to the sign-in page, with the encoded
    request URL as callback; with a token it is let through, whatever the
    role. *)
Theorem middleware_protects_api (rest url : string) :
  let pathname := ("/api/" ++ rest)%string in
  startsWith pathname "/api/auth" = false ->
  str_includes pathname "/favicon.ico" = false ->
  middleware encodeURI pathname url None = RedirectSignIn (encodeURI url)
  /\ forall t, middleware encodeURI pathname url (Some t) = Next.
Proof.
  intros pathname Hauth Hfav. unfold middleware.
  assert (Hpub : isPublicPath pathname = false) by reflexivity.
  assert (Hapi : isPublicApiPath pathname = false).
  { unfold isPublicApiPath, PUBLIC_API_PATHS. cbn [existsb].
    rewrite Hauth. reflexivity. }
  assert (Hnext : startsWith pathname "/_next" = false) by reflexivity.
  assert (Hstaff : isStaffPage pathname = false) by reflexivity.
  rewrite Hpub, Hapi, Hnext, Hfav, Hstaff. cbn [orb andb].
  split; [reflexivity | intros t; reflexivity].
Qed.

(** X25. The staff pages.  For a path under /products/create,
    /products/edit or /orders/manage:
    - when the path does not contain "/favicon.ico": without a token the
      request is redirected to the sign-in page; with the token of a
      MANAGER or ADMIN it is let through; with any other token it is
      redirected to the home page;
    - when the path contains "/favicon.ico" it is let through, with or
      without a token. *)
Theorem middleware_staff_pages (pathname url : string) :
  isStaffPage pathname = true ->
  (str_includes pathname "/favicon.ico" = false ->
   middleware encodeURI pathname url None = RedirectSignIn (encodeURI url)
   /\ (forall i r,
          middleware encodeURI pathname url
            (Some (Token.mk i (Some (role_name r))))
          = if is_staff r then Next else RedirectHome)
   /\ (forall t, not_staff_role (Token.role t) = true ->
                 middleware encodeURI pathname url (Some t) = RedirectHome))
  /\ (str_includes pathname "/favicon.ico" = true ->
      forall token, middleware encodeURI pathname url token = Next).
Proof.
  intros Hstaff. split.
  - intros Hfav.
    assert (Hclosed : isPublicPath pathname = false
                      /\ isPublicApiPath pathname = false
                      /\ startsWith pathname "/_next" = false).
    { unfold isStaffPage in Hstaff.
      apply orb_true_iff in Hstaff as [Hstaff | H3];
        [apply orb_true_iff in Hstaff as [H1 | H2]|].
      - apply prefix_split in H1 as [rest ->]. repeat split.
      - apply prefix_split in H2 as [rest ->]. repeat split.
      - apply prefix_split in H3 as [rest ->]. repeat split. }
    destruct Hclosed as (Hpub & Hapi & Hnext).
    unfold middleware. rewrite Hpub, Hapi, Hnext, Hfav, Hstaff.
    cbn [orb andb]. split; [reflexivity|]. split.
    + intros i r. cbn [Token.role]. rewrite not_staff_role_name.
      destruct (is_staff r); reflexivity.
    + intros t Ht. now rewrite Ht.
  - intros Hfav token. unfold middleware. rewrite Hfav.
    now rewrite !orb_true_r.
Qed.
End MiddlewareFacts.

Lemma middleware_protects_api_witness :
  middleware SampleDb.encodeURI "/api/orders" "http://shop/api/orders" None
  = RedirectSignIn "http://shop/api/orders".
Proof.
  destruct (middleware_protects_api SampleDb.encodeURI "orders"
              "http://shop/api/orders") as [H _];
    [reflexivity | reflexivity | exact H].
Defined.

Lemma middleware_staff_pages_witness :
  middleware SampleDb.encodeURI "/orders/manage" "http://shop/orders/manage"
    (Some (Token.mk (Some "alice"%string) (Some "CUSTOMER"%string)))
  = RedirectHome
  /\ middleware SampleDb.encodeURI "/orders/manage/favicon.ico"
       "http://shop/orders/manage/favicon.ico" None = Next.
Proof.
  split.
  - destruct (middleware_staff_pages SampleDb.encodeURI "/orders/manage"
                "http://shop/orders/manage") as [H _]; [reflexivity|].
    destruct H as (_ & H & _); [reflexivity|].
    apply (H (Some "alice"%string) CUSTOMER).
  - destruct (middleware_staff_pages SampleDb.encodeURI
                "/orders/manage/favicon.ico"
                "http://shop/orders/manage/favicon.ico") as [_ H];
      [reflexivity|].
    apply H. reflexivity.
Defined.

(** ** Sign-in *)

Section AuthorizeFacts.
Variable compare : string -> string -> bool.

(** X26. Credentials are checked against the stored hash.  Whenever
    [authorize] returns a user, the credentials carry a non-empty email
    and password, a user with that email is in the table with a
    non-empty password hash that [bcrypt.compare] accepts for the
    password, and the user returned has the id, email, name, image and
    role of that row.  So no user without a password hash (an account
    made by Google sign-in) is ever authorized by credentials. *)
Theorem authorize_sound
        (credentials : option Credentials.t) (us : list User.t)
        (au : AuthUser.t) :
  authorize compare credentials us = Some au ->
  exists email password u hash,
    credentials = Some (Credentials.mk (Value email) (Value password))
    /\ email <> EmptyString
    /\ password <> EmptyString
    /\ find_user_by_email us email = Some u
    /\ In u us
    /\ User.email u = email
    /\ User.password u = Some hash
    /\ hash <> EmptyString
    /\ compare password hash = true
    /\ AuthUser.id au = User.id u
    /\ AuthUser.email au = User.email u
    /\ AuthUser.name au = User.name u
    /\ AuthUser.image au = User.image u
    /\ AuthUser.role au = Some (role_name (User.role u)).
Proof.
  unfold authorize.
  destruct credentials as [[[| |email] [| |password]]|]; try discriminate.
  cbn [Credentials.email Credentials.password].
  destruct (String.eqb_spec email EmptyString) as [|He]; [discriminate|].
  destruct (String.eqb_spec password EmptyString) as [|Hp];
    [discriminate|].
  cbn [orb].
  destruct (find_user_by_email us email) as [u|] eqn:Hu; [|discriminate].
  destruct (User.password u) as [hash|] eqn:Hh; [|discriminate].
  destruct (String.eqb_spec hash EmptyString) as [|Hhash]; [discriminate|].
  destruct (compare password hash) eqn:Hc; [|discriminate].
  intros [= <-].
  pose proof Hu as Hu'. unfold find_user_by_email in Hu'.
  apply find_some in Hu' as [Hin Hem]. apply String.eqb_eq in Hem.
  exists email, password, u, hash. simpl.
  repeat (split; [assumption || reflexivity|]). reflexivity.
Qed.

(** X27. The session carries the role of sign-in.  For a user
    returned by [authorize], the token the [jwt] callback makes at
    sign-in holds the id and the role of the stored row; the callback
    leaves the token as it is on every later request; and the [session]
    callback copies that id and role into [session.user]. *)
Theorem session_carries_sign_in_role
        (credentials : option Credentials.t) (us : list User.t)
        (au : AuthUser.t) (token0 : Token.t) (s : SessionData.t) :
  authorize compare credentials us = Some au ->
  let token := jwt token0 (Some au) in
  (exists u, In u us
             /\ Token.id token = Some (User.id u)
             /\ Token.role token = Some (role_name (User.role u)))
  /\ jwt token None = token
  /\ exists s',
       session_callback (Some s) (jwt token None) = Some s'
       /\ SessionData.id s' = Token.id token
       /\ SessionData.role s' = Token.role token
       /\ SessionData.email s' = SessionData.email s
       /\ SessionData.name s' = SessionData.name s.
Proof.
  intros Hau token. subst token.
  unfold authorize in Hau.
  destruct credentials as [[[| |email] [| |password]]|]; try discriminate.
  cbn [Credentials.email Credentials.password] in Hau.
  destruct (_ || _); [discriminate|].
  destruct (find_user_by_email us email) as [u|] eqn:Hu; [|discriminate].
  destruct (User.password u) as [hash|]; [|discriminate].
  destruct (String.eqb hash EmptyString); [discriminate|].
  destruct (compare password hash); [|discriminate].
  injection Hau as <-. simpl.
  unfold find_user_by_email in Hu. apply find_some in Hu as [Hin _].
  split; [exists u; auto|]. split; [reflexivity|].
  eexists. split; [reflexivity|]. simpl. auto.
Qed.
End AuthorizeFacts.

Lemma authorize_sound_witness :
  exists email password u hash,
    Some (Credentials.mk (Value "alice@example.com"%string)
            (Value "a"%string))
    = Some (Credentials.mk (Value email) (Value password))
    /\ In u SampleDb.users
    /\ User.password u = Some hash
    /\ hash <> EmptyString
    /\ SampleDb.compare password hash = true.
Proof.
  destruct (authorize_sound SampleDb.compare
              (Some (Credentials.mk (Value "alice@example.com"%string)
                       (Value "a"%string)))
              SampleDb.users
              (AuthUser.mk "alice" "alice@example.com" (Some "Alice"%string)
                 None (Some "CUSTOMER"%string)))
    as (email & password & u & hash & Hc & _ & _ & _ & Hin & _ & Hh & Hne
        & Hcmp & _).
  - reflexivity.
  - exists email, password, u, hash. auto.
Defined.

Lemma session_carries_sign_in_role_witness :
  let token :=
    jwt (Token.mk None None)
      (Some (AuthUser.mk "mallory" "mallory@example.com" None None
               (Some "MANAGER"%string))) in
  Token.role token = Some "MANAGER"%string
  /\ jwt token None = token.
Proof.
  destruct (session_carries_sign_in_role SampleDb.compare
              (Some (Credentials.mk (Value "mallory@example.com"%string)
                       (Value "m"%string)))
              SampleDb.users
              (AuthUser.mk "mallory" "mallory@example.com" None None
                 (Some "MANAGER"%string))
              (Token.mk None None)
              (SessionData.mk None None None None None))
    as (_ & Hkeep & _).
  - reflexivity.
  - split; [reflexivity | exact Hkeep].
Defined.

(** X28. Signing in never changes a role.  Whatever the [signIn]
    callback is given:
    - every user of the table is still there with the same id, email,
      password hash and role;
    - a user that was not there before is the one row the callback
      created: it has the id drawn, the role CUSTOMER and no password;
    - when the callback returns [false] both tables are as before;
    - when emails were unique they still are. *)
Theorem signIn_keeps_roles
        (user : SignInUser.t) (account : option SignInAccount.t)
        (cuid_user cuid_account : string)
        (us : list User.t) (accs : list Account.t) :
  let r := signIn user account cuid_user cuid_account us accs in
  let us' := snd (fst r) in
  (forall u, In u us ->
     exists u', In u' us'
                /\ User.id u' = User.id u
                /\ User.email u' = User.email u
                /\ User.password u' = User.password u
                /\ User.role u' = User.role u)
  /\ (forall u', In u' us' ->
        (exists u, In u us
                   /\ User.id u' = User.id u
                   /\ User.role u' = User.role u)
        \/ (User.id u' = cuid_user
            /\ User.role u' = CUSTOMER
            /\ User.password u' = None))
  /\ (fst (fst r) = false -> us' = us /\ snd r = accs)
  /\ (NoDup (map User.email us) -> NoDup (map User.email us')).
Proof.
  intros r us'. subst us' r. unfold signIn.
  assert (Hsame : forall l : list User.t,
             (forall u, In u l ->
                exists u', In u' l /\ User.id u' = User.id u
                           /\ User.email u' = User.email u
                           /\ User.password u' = User.password u
                           /\ User.role u' = User.role u)
             /\ (forall u', In u' l ->
                   (exists u, In u l /\ User.id u' = User.id u
                              /\ User.role u' = User.role u)
                   \/ (User.id u' = cuid_user /\ User.role u' = CUSTOMER
                       /\ User.password u' = None))).
  { intros l. split; intros u Hu; [|left]; exists u; auto. }
  destruct account as [a|];
    [|cbn [fst snd]; destruct (Hsame us); auto 6; repeat split; auto;
      discriminate].
  destruct (negb _);
    [cbn [fst snd]; destruct (Hsame us); repeat split; auto; discriminate|].
  destruct (SignInUser.email user) as [email|];
    [|cbn [fst snd]; destruct (Hsame us); repeat split; auto].
  destruct (find_user_by_email us email) as [existing|] eqn:Hex.
  - set (update := fun u : User.t =>
                     if String.eqb (User.email u) email
                     then User.mk (User.id u)
                            (written (SignInUser.name user) (User.name u))
                            (User.email u)
                            (written (SignInUser.image user) (User.image u))
                            (User.password u) (User.role u)
                     else u).
    assert (Hupd : forall u, User.id (update u) = User.id u
                             /\ User.email (update u) = User.email u
                             /\ User.password (update u) = User.password u
                             /\ User.role (update u) = User.role u).
    { intros u. unfold update.
      destruct (String.eqb (User.email u) email); simpl; auto. }
    assert (Hmap :
              (forall u, In u us ->
                 exists u', In u' (map update us)
                            /\ User.id u' = User.id u
                            /\ User.email u' = User.email u
                            /\ User.password u' = User.password u
                            /\ User.role u' = User.role u)
              /\ (forall u', In u' (map update us) ->
                    (exists u, In u us /\ User.id u' = User.id u
                               /\ User.role u' = User.role u)
                    \/ (User.id u' = cuid_user /\ User.role u' = CUSTOMER
                        /\ User.password u' = None))
              /\ (NoDup (map User.email us) ->
                  NoDup (map User.email (map update us)))).
    { split; [|split].
      - intros u Hu. exists (update u). split; [now apply in_map|].
        apply Hupd.
      - intros u' Hu'. apply in_map_iff in Hu' as (u & <- & Hu).
        left. exists u. split; [exact Hu|]. split; apply Hupd.
      - intros Hnd. rewrite map_map.
        erewrite map_ext; [exact Hnd|]. intros u. apply Hupd. }
    destruct Hmap as (M1 & M2 & M3).
    destruct (existsb _ accs).
    + cbn [fst snd]. repeat split; auto; discriminate.
    + destruct (account_taken accs a); cbn [fst snd].
      * destruct (Hsame us); repeat split; auto.
      * repeat split; auto; discriminate.
  - cbn [fst snd]. unfold create. split; [|split; [|split]].
    + intros u Hu. exists u. split; [apply in_or_app; now left | auto].
    + intros u' Hu'. apply in_app_or in Hu' as [Hu'|[<-|[]]].
      * left. exists u'. auto.
      * right. simpl. auto.
    + discriminate.
    + intros Hnd. rewrite map_app. simpl. apply NoDup_snoc; [exact Hnd|].
      intros Hin. apply in_map_iff in Hin as (u & He & Hu).
      unfold find_user_by_email in Hex.
      apply (find_none _ _ Hex) in Hu.
      rewrite He, String.eqb_refl in Hu. discriminate.
Qed.
